(** * FFP_details.py: metadata parsing and record filtering

    A shallow embedding of the two pieces of logic of [FFP_details.py]:
    [parse_metadata] (lines 31-45) and the date and search filters that
    build [filtered_df] (lines 68-78).

    Python values are an inductive type of JSON-shaped values, exceptions
    are explicit results, and a data frame is the list of its rows.  The
    library functions the script calls ([json.loads], [re.compile], the
    search of a compiled pattern and the check pandas makes before a
    string method) are parameters of the development; a small decoder, a
    small pattern matcher and a small column check instantiate them in the
    examples. *)

From Stdlib Require Import ZArith List String Ascii Bool Lia.
From Stdlib Require Import DecimalString.
From Stdlib Require DecimalPos DecimalZ.
Import ListNotations.

Open Scope string_scope.
Open Scope list_scope.

Set Implicit Arguments.
Set Warnings "-register-all".

(* ================================================================= *)
(** ** Python values, exceptions and results *)

(** A Python [float]: not-a-number, an infinity, or [m * 2^e]. *)
Inductive pyfloat : Type :=
| FNaN
| FInf (negative : bool)
| FFinite (m e : Z).

(** The values [json.loads] can build, which are also the values a JSON
    column arrives as: [None], [bool], [int], [float], [str], [list], and
    [dict] with [str] keys, kept in insertion order. *)
Inductive pyval : Type :=
| PyNone
| PyBool (b : bool)
| PyInt (z : Z)
| PyFloat (f : pyfloat)
| PyStr (s : string)
| PyList (l : list pyval)
| PyDict (d : list (string * pyval)).

(** The exceptions the modelled code can meet; every one of them derives
    from [Exception]. *)
Inductive pyexn : Type :=
| JSONDecodeError
| RecursionError
| AttributeError
| TypeError
| ReError.

Inductive pyresult (A : Type) : Type :=
| Return (a : A)
| Raise (e : pyexn).

Arguments Return {A} a.
Arguments Raise {A} e.

Definition bind {A B : Type} (m : pyresult A) (k : A -> pyresult B)
  : pyresult B :=
  match m with
  | Return a => k a
  | Raise e => Raise e
  end.

Notation "x <- m ;; k" := (bind m (fun x => k))
  (at level 61, m at next level, right associativity).

Definition raises {A : Type} (m : pyresult A) : Prop :=
  exists e, m = Raise e.

(** The two literals of the script. *)
Definition NA : pyval := PyStr "N/A".
Definition name_question : string := "What's your full name".

(* ================================================================= *)
(** ** The operations [parse_metadata] performs on values *)

(** Key lookup in a [dict]. *)
Fixpoint dict_lookup (d : list (string * pyval)) (k : string)
  : option pyval :=
  match d with
  | [] => None
  | (k', v) :: d' => if String.eqb k' k then Some v else dict_lookup d' k
  end.

(** [d.get(k, default)]. *)
Definition dict_get (d : list (string * pyval)) (k : string)
  (default : pyval) : pyval :=
  match dict_lookup d k with
  | Some v => v
  | None => default
  end.

(** [v.get(k, default)] on an arbitrary value: only a [dict] has the
    attribute. *)
Definition py_get (v : pyval) (k : string) (default : pyval)
  : pyresult pyval :=
  match v with
  | PyDict d => Return (dict_get d k default)
  | _ => Raise AttributeError
  end.

(** [isinstance(v, dict)]. *)
Definition is_dict (v : pyval) : bool :=
  match v with
  | PyDict _ => true
  | _ => false
  end.

Fixpoint chars_of (s : string) : list pyval :=
  match s with
  | EmptyString => []
  | String c s' => PyStr (String c EmptyString) :: chars_of s'
  end.

(** [for item in v]: a list yields its elements, a string its
    one-character strings, a dict its keys; nothing else is iterable. *)
Definition py_iter (v : pyval) : pyresult (list pyval) :=
  match v with
  | PyList l => Return l
  | PyStr s => Return (chars_of s)
  | PyDict d => Return (map (fun kv => PyStr (fst kv)) d)
  | _ => Raise TypeError
  end.

(** [v == s] for a string literal [s]. *)
Definition py_eq_str (v : pyval) (s : string) : bool :=
  match v with
  | PyStr t => String.eqb t s
  | _ => false
  end.

(* ================================================================= *)
(** ** [parse_metadata] *)

(** Line 41, one item:
    [(item.get("question", "N/A"), item.get("answer", "N/A"))]. *)
Definition qa_of (d : list (string * pyval)) : pyval * pyval :=
  (dict_get d "question" NA, dict_get d "answer" NA).

(** Line 41: the list comprehension, guarded by [isinstance(item, dict)]. *)
Fixpoint qa_pairs (plan : list pyval) : list (pyval * pyval) :=
  match plan with
  | [] => []
  | PyDict d :: rest => qa_of d :: qa_pairs rest
  | _ :: rest => qa_pairs rest
  end.

(** Line 42: [next((item.get("answer") for item in plan
    if item.get("question") == "What's your full name"), "N/A")].  The
    generator has no [isinstance] guard, so [item.get] is called on every
    item up to and including the first match. *)
Fixpoint find_name (plan : list pyval) : pyresult pyval :=
  match plan with
  | [] => Return NA
  | item :: rest =>
      q <- py_get item "question" PyNone ;;
      if py_eq_str q name_question
      then py_get item "answer" PyNone
      else find_name rest
  end.

(** Lines 40-43: [plan] is read once and iterated twice, by the
    comprehension of line 41 and then by the generator of line 42. *)
Definition extract (data : pyval)
  : pyresult (pyval * list (pyval * pyval)) :=
  plan <- py_get data "plan" (PyList []) ;;
  items <- py_iter plan ;;
  let qa := qa_pairs items in
  items' <- py_iter plan ;;
  name <- find_name items' ;;
  Return (name, qa).

Section ParseMetadata.

(** [json.loads]. *)
Variable json_loads : string -> pyresult pyval.

(** The body of the [try] block, lines 33-43. *)
Definition parse_metadata_try (metadata_value : pyval)
  : pyresult (pyval * list (pyval * pyval)) :=
  match metadata_value with
  | PyStr s => data <- json_loads s ;; extract data
  | PyDict d => extract (PyDict d)
  | _ => Return (NA, [])
  end.

(** Lines 31-45: the [try] block with its [except Exception] handler. *)
Definition parse_metadata (metadata_value : pyval)
  : pyval * list (pyval * pyval) :=
  match parse_metadata_try metadata_value with
  | Return r => r
  | Raise _ => (NA, [])
  end.

End ParseMetadata.

(* ================================================================= *)
(** ** Rows and boolean series *)

(** The identifier column holds integers or strings (a serial key or a
    UUID); [astype(str)] renders an integer in decimal. *)
Inductive ident : Type :=
| IdInt (z : Z)
| IdStr (s : string).

Definition str_of_id (i : ident) : string :=
  match i with
  | IdInt z => NilZero.string_of_int (Z.to_int z)
  | IdStr s => s
  end.

(** One row of [df] after line 58: the three columns read from the table
    and the two derived ones.  [created_at] is a pandas timestamp, a
    count of nanoseconds since the epoch; it is never null. *)
Record row : Type := mkRow {
  col_id : ident;
  col_created_at : Z;
  col_metadata : pyval;
  col_name : pyval;
  col_qa_pairs : list (pyval * pyval)
}.

(** Line 58: both derived columns come from [parse_metadata]. *)
Definition with_derived (json_loads : string -> pyresult pyval)
  (r : ident * Z * pyval) : row :=
  let '(i, t, m) := r in
  let '(n, qa) := parse_metadata json_loads m in
  mkRow i t m n qa.

Definition ns_per_day : Z := 86400 * 1000000000.

(** [.dt.date]: the calendar day of a timestamp, as a day number. *)
Definition dt_date (t : Z) : Z := t / ns_per_day.

(** Elementwise [&] and [|] of two boolean series. *)
Definition series_and (a b : list bool) : list bool :=
  map (fun p => fst p && snd p) (combine a b).

Definition series_or (a b : list bool) : list bool :=
  map (fun p => fst p || snd p) (combine a b).

(** [df[mask]]: the rows whose mask entry is [True], in order. *)
Fixpoint select {A : Type} (df : list A) (mask : list bool) : list A :=
  match df, mask with
  | r :: df', b :: mask' =>
      if b then r :: select df' mask' else select df' mask'
  | _, _ => []
  end.

(** Line 68. *)
Definition date_filter (start_date end_date : Z) (df : list row)
  : list row :=
  select df
    (series_and
       (map (fun r => Z.geb (dt_date (col_created_at r)) start_date) df)
       (map (fun r => Z.leb (dt_date (col_created_at r)) end_date) df)).

(* ================================================================= *)
(** ** Strings: substring test, case folding, pattern characters *)

(** [p in s]. *)
Fixpoint contains (p s : string) : bool :=
  String.prefix p s ||
  match s with
  | EmptyString => false
  | String _ s' => contains p s'
  end.

(** Strings are ASCII text; folding case maps [A-Z] to [a-z]. *)
Definition lower_char (c : ascii) : ascii :=
  let n := nat_of_ascii c in
  if (65 <=? n)%nat && (n <=? 90)%nat then ascii_of_nat (n + 32) else c.

Fixpoint lower (s : string) : string :=
  match s with
  | EmptyString => EmptyString
  | String c s' => String (lower_char c) (lower s')
  end.

Definition fold_case (ignorecase : bool) (s : string) : string :=
  if ignorecase then lower s else s.

(** The characters with a meaning of their own in a pattern:
    [. ^ $ * + ? { } [ ] \ | ( )]. *)
Definition special (c : ascii) : bool :=
  existsb (Ascii.eqb c)
    ["."; "^"; "$"; "*"; "+"; "?"; "{"; "}"; "["; "]"; "\"; "|"; "("; ")"]%char.

Fixpoint plain (pat : string) : bool :=
  match pat with
  | EmptyString => true
  | String c pat' => negb (special c) && plain pat'
  end.

(** The truth value of a string: non-empty. *)
Definition truthy (s : string) : bool :=
  match s with
  | EmptyString => false
  | String _ _ => true
  end.

(* ================================================================= *)
(** ** The search filter *)

Section Search.

(** A compiled pattern, [re.compile(pat, flags)] with the flag
    [re.IGNORECASE] as a boolean, and [rx.search(s) is not None]. *)
Variable regex : Type.
Variable re_compile : string -> bool -> pyresult regex.
Variable re_search : regex -> string -> bool.

(** [col.str]: before any string method runs, pandas checks the column
    and refuses it when it takes its values to be of a kind that is no
    text, numbers only or booleans only.  The verdict rests on the
    entries at hand and on the dtype the column got when it was built,
    which selecting rows does not change: [built] is the column as it was
    built, [col] the entries selected from it. *)
Variable str_accessor : list pyval -> list pyval -> bool.

(** [col.str.contains(pat, case=case, na=na)], with pandas's default
    [regex=True]: a column the accessor refuses raises [AttributeError];
    otherwise the pattern is compiled once, and an entry that is not a
    string (null included) gets [na]. *)
Definition str_contains (built col : list pyval) (pat : string)
  (case : bool) (na : bool) : pyresult (list bool) :=
  if str_accessor built col then
    rx <- re_compile pat (negb case) ;;
    Return (map (fun v => match v with
                          | PyStr s => re_search rx s
                          | _ => na
                          end) col)
  else Raise AttributeError.

(** [col.astype(str)]. *)
Definition astype_str (col : list ident) : list pyval :=
  map (fun i => PyStr (str_of_id i)) col.

(** Lines 74-78, on rows selected from a frame whose name column was
    built as [names] on line 58.  [astype(str)] builds a new column, of
    strings only, so the value of [na] in the second call plays no
    part. *)
Definition search_filter (names : list pyval) (search_term : string)
  (filtered_df : list row) : pyresult (list row) :=
  if truthy search_term then
    by_name <- str_contains names (map col_name filtered_df)
                 search_term false false ;;
    by_id <- str_contains (astype_str (map col_id filtered_df))
               (astype_str (map col_id filtered_df))
               search_term true false ;;
    Return (select filtered_df (series_or by_name by_id))
  else Return filtered_df.

(** Lines 68-78: [filtered_df] as the page renders it, from the frame
    [df] of line 58. *)
Definition filtered_df (start_date end_date : Z) (search_term : string)
  (df : list row) : pyresult (list row) :=
  search_filter (map col_name df) search_term
    (date_filter start_date end_date df).

End Search.

(* ================================================================= *)
(** ** A pattern matcher for a fragment of the pattern language

    Patterns made of ordinary characters and of [.], which stands for any
    character but a newline.  A pattern that uses another special
    character is outside the fragment and the matcher refuses it; no
    statement below evaluates the matcher on such a pattern. *)

Inductive atom : Type :=
| ALit (c : ascii)
| AAny.

Record lite_regex : Type := mkRegex {
  rx_atoms : list atom;
  rx_ignorecase : bool
}.

Fixpoint atoms_of (pat : string) : option (list atom) :=
  match pat with
  | EmptyString => Some []
  | String c pat' =>
      if Ascii.eqb c "."%char then option_map (cons AAny) (atoms_of pat')
      else if special c then None
      else option_map (cons (ALit c)) (atoms_of pat')
  end.

(** The atoms of a pattern without special characters. *)
Fixpoint literals (pat : string) : list atom :=
  match pat with
  | EmptyString => []
  | String c pat' => ALit c :: literals pat'
  end.

Definition lite_compile (pat : string) (ignorecase : bool)
  : pyresult lite_regex :=
  match atoms_of pat with
  | Some atoms => Return (mkRegex atoms ignorecase)
  | None => Raise ReError
  end.

Definition atom_match (ignorecase : bool) (a : atom) (c : ascii) : bool :=
  match a with
  | ALit l =>
      if ignorecase then Ascii.eqb (lower_char l) (lower_char c)
      else Ascii.eqb l c
  | AAny => negb (Ascii.eqb c "010"%char)
  end.

Fixpoint match_here (ignorecase : bool) (atoms : list atom) (s : string)
  : bool :=
  match atoms, s with
  | [], _ => true
  | _ :: _, EmptyString => false
  | a :: atoms', String c s' =>
      atom_match ignorecase a c && match_here ignorecase atoms' s'
  end.

Fixpoint search_from (ignorecase : bool) (atoms : list atom) (s : string)
  : bool :=
  match_here ignorecase atoms s ||
  match s with
  | EmptyString => false
  | String _ s' => search_from ignorecase atoms s'
  end.

Definition lite_search (rx : lite_regex) (s : string) : bool :=
  search_from (rx_ignorecase rx) (rx_atoms rx) s.

(* ================================================================= *)
(** ** A decoder for a fragment of JSON

    Objects, arrays, strings without escapes, integers, [true], [false]
    and [null], with optional white space.  A document outside the
    fragment is refused; the examples below only decode documents inside
    it, or text that is no JSON at all. *)

Definition dquote : ascii := "034"%char.

(** A string literal of a document: [quoted "plan"] is the six
    characters of the key with its quotes. *)
Definition quoted (s : string) : string :=
  String dquote (s ++ String dquote EmptyString).

Definition is_ws (c : ascii) : bool :=
  existsb (Ascii.eqb c) [" "; "009"; "010"; "013"]%char.

Definition is_digit (c : ascii) : bool :=
  let n := nat_of_ascii c in (48 <=? n)%nat && (n <=? 57)%nat.

Fixpoint skip_ws (s : string) : string :=
  match s with
  | String c s' => if is_ws c then skip_ws s' else s
  | EmptyString => s
  end.

(** The text of a string literal after its opening quote. *)
Fixpoint scan_string (s : string) : option (string * string) :=
  match s with
  | EmptyString => None
  | String c s' =>
      if Ascii.eqb c dquote then Some (EmptyString, s')
      else if Ascii.eqb c "\"%char || (nat_of_ascii c <? 32)%nat then None
      else match scan_string s' with
           | Some (t, r) => Some (String c t, r)
           | None => None
           end
  end.

Fixpoint scan_digits (acc : Z) (s : string) : Z * string :=
  match s with
  | String c s' =>
      if is_digit c
      then scan_digits (10 * acc + Z.of_nat (nat_of_ascii c - 48)) s'
      else (acc, s)
  | EmptyString => (acc, s)
  end.

(** An integer literal without sign: [0], or digits not led by [0]; a
    fraction or an exponent after it puts the number outside the
    fragment. *)
Definition scan_nat (s : string) : option (Z * string) :=
  match s with
  | String c s' =>
      if is_digit c then
        let '(n, r) := if Ascii.eqb c "0"%char then (0%Z, s')
                       else scan_digits 0 s in
        match r with
        | String d _ =>
            if is_digit d || existsb (Ascii.eqb d) ["."; "e"; "E"]%char
            then None else Some (n, r)
        | EmptyString => Some (n, r)
        end
      else None
  | EmptyString => None
  end.

(** [d[k] = v]: a key already present keeps its place. *)
Fixpoint dict_set (d : list (string * pyval)) (k : string) (v : pyval)
  : list (string * pyval) :=
  match d with
  | [] => [(k, v)]
  | (k', v') :: d' =>
      if String.eqb k' k then (k, v) :: d' else (k', v') :: dict_set d' k v
  end.

Fixpoint decode_value (fuel : nat) (s : string) : option (pyval * string) :=
  match fuel with
  | O => None
  | S fuel' =>
      match skip_ws s with
      | String "n" (String "u" (String "l" (String "l" r))) =>
          Some (PyNone, r)
      | String "t" (String "r" (String "u" (String "e" r))) =>
          Some (PyBool true, r)
      | String "f" (String "a" (String "l" (String "s" (String "e" r)))) =>
          Some (PyBool false, r)
      | String "-" r =>
          option_map (fun p => (PyInt (- fst p), snd p)) (scan_nat r)
      | String "[" r =>
          match skip_ws r with
          | String "]" r' => Some (PyList [], r')
          | _ => decode_items fuel' r []
          end
      | String "{" r =>
          match skip_ws r with
          | String "}" r' => Some (PyDict [], r')
          | _ => decode_members fuel' r []
          end
      | String c r =>
          if Ascii.eqb c dquote
          then option_map (fun p => (PyStr (fst p), snd p)) (scan_string r)
          else option_map (fun p => (PyInt (fst p), snd p))
                 (scan_nat (String c r))
      | EmptyString => None
      end
  end

with decode_items (fuel : nat) (s : string) (acc : list pyval)
  : option (pyval * string) :=
  match fuel with
  | O => None
  | S fuel' =>
      match decode_value fuel' s with
      | Some (v, r) =>
          match skip_ws r with
          | String "," r' => decode_items fuel' r' (acc ++ [v])
          | String "]" r' => Some (PyList (acc ++ [v]), r')
          | _ => None
          end
      | None => None
      end
  end

with decode_members (fuel : nat) (s : string) (acc : list (string * pyval))
  : option (pyval * string) :=
  match fuel with
  | O => None
  | S fuel' =>
      match skip_ws s with
      | String c r =>
          if Ascii.eqb c dquote then
            match scan_string r with
            | Some (k, r1) =>
                match skip_ws r1 with
                | String ":" r2 =>
                    match decode_value fuel' r2 with
                    | Some (v, r3) =>
                        match skip_ws r3 with
                        | String "," r4 =>
                            decode_members fuel' r4 (dict_set acc k v)
                        | String "}" r4 =>
                            Some (PyDict (dict_set acc k v), r4)
                        | _ => None
                        end
                    | None => None
                    end
                | _ => None
                end
            | None => None
            end
          else None
      | EmptyString => None
      end
  end.

(** The whole text must be one value. *)
Definition lite_loads (s : string) : pyresult pyval :=
  match decode_value (2 * String.length s + 2) s with
  | Some (v, r) =>
      match skip_ws r with
      | EmptyString => Return v
      | String _ _ => Raise JSONDecodeError
      end
  | None => Raise JSONDecodeError
  end.

(* ================================================================= *)
(** ** Vocabulary of the statements *)

(** A mapping whose ["question"] is the name question. *)
Definition asks_name (d : list (string * pyval)) : bool :=
  py_eq_str (dict_get d "question" PyNone) name_question.

(** A plan element with a ["question"] field equal to the name
    question; an element that is no mapping has no such field. *)
Definition item_asks_name (v : pyval) : bool :=
  match v with
  | PyDict d => asks_name d
  | _ => false
  end.

(** A mapping that the scan of line 42 steps over. *)
Definition stepped_over (v : pyval) : bool :=
  is_dict v && negb (item_asks_name v).

Definition is_list (v : pyval) : bool :=
  match v with
  | PyList _ => true
  | _ => false
  end.

(** The metadata value [v] is the mapping [md], or a string that
    [json_loads] decodes to it. *)
Inductive carries (json_loads : string -> pyresult pyval)
  : pyval -> list (string * pyval) -> Prop :=
| carries_dict : forall md, carries json_loads (PyDict md) md
| carries_str : forall s md,
    json_loads s = Return (PyDict md) -> carries json_loads (PyStr s) md.

(** [out] is [l] with some elements removed: nothing added, nothing
    changed, order kept. *)
Inductive subseq {A : Type} : list A -> list A -> Prop :=
| subseq_nil : subseq [] []
| subseq_drop : forall x out l, subseq out l -> subseq out (x :: l)
| subseq_keep : forall x out l, subseq out l -> subseq (x :: out) (x :: l).

(** The tests of the search filter when the query is read letter by
    letter: the name contains it whatever the case of either, the
    identifier's string form contains it as it is. *)
Definition name_icontains (name : pyval) (q : string) : bool :=
  match name with
  | PyStr s => contains (lower q) (lower s)
  | _ => false
  end.

Definition keeps_literally (q : string) (r : row) : bool :=
  name_icontains (col_name r) q || contains q (str_of_id (col_id r)).

(** The tests of the search filter through compiled patterns. *)
Definition name_test {regex : Type} (re_search : regex -> string -> bool)
  (rx : regex) (name : pyval) : bool :=
  match name with
  | PyStr s => re_search rx s
  | _ => false
  end.

(** The test the search filter applies to a row once the query is
    compiled, with and without [re.IGNORECASE]. *)
Definition keeps {regex : Type} (re_search : regex -> string -> bool)
  (rx_name rx_id : regex) (r : row) : bool :=
  name_test re_search rx_name (col_name r)
  || re_search rx_id (str_of_id (col_id r)).

Definition in_range (start_date end_date : Z) (r : row) : bool :=
  Z.geb (dt_date (col_created_at r)) start_date
  && Z.leb (dt_date (col_created_at r)) end_date.

(** Text of the seven-bit characters only. *)
Fixpoint is_ascii (s : string) : bool :=
  match s with
  | EmptyString => true
  | String c s' => (nat_of_ascii c <? 128)%nat && is_ascii s'
  end.

(** What the development asks of the pattern library.  A pattern without
    special characters compiles.  Searching it finds at least what the
    substring test finds, after folding the case of [A-Z] when
    [re.IGNORECASE] is set; and it finds no more than that when the case
    is kept, or when pattern and text are both of seven-bit characters:
    beyond them the library folds the case of letters this test does not
    know. *)
Definition plain_patterns_are_literal {regex : Type}
  (re_compile : string -> bool -> pyresult regex)
  (re_search : regex -> string -> bool) : Prop :=
  forall pat ignorecase,
    plain pat = true ->
    exists rx,
      re_compile pat ignorecase = Return rx /\
      forall s,
        (contains (fold_case ignorecase pat) (fold_case ignorecase s) = true ->
         re_search rx s = true) /\
        (ignorecase = false \/ (is_ascii pat = true /\ is_ascii s = true) ->
         re_search rx s =
         contains (fold_case ignorecase pat) (fold_case ignorecase s)).

Definition is_str (v : pyval) : bool :=
  match v with
  | PyStr _ => true
  | _ => false
  end.

(** What the development asks of the [.str] accessor: it accepts the
    entries selected from a column when one of them is a string, and
    when the column was built of strings only. *)
Definition accessor_accepts_text
  (str_accessor : list pyval -> list pyval -> bool) : Prop :=
  forall built col,
    subseq col built ->
    existsb is_str col = true \/ forallb is_str built = true ->
    str_accessor built col = true.

(** An accessor for the examples.  It follows pandas on columns of
    strings, nulls, numbers and booleans: a column built of numbers and
    nulls only, with a number among them, or of booleans only, gets a
    numeric or boolean dtype and is refused whatever is selected from it;
    in a column of any other making, a selection is refused when it holds
    a value that is not null and all such values are numbers, or all are
    booleans.  No statement depends on it but through the examples. *)
Definition is_null (v : pyval) : bool :=
  match v with
  | PyNone => true
  | PyFloat FNaN => true
  | _ => false
  end.

Definition is_number (v : pyval) : bool :=
  match v with
  | PyInt _ => true
  | PyFloat _ => true
  | _ => false
  end.

Definition is_boolean (v : pyval) : bool :=
  match v with
  | PyBool _ => true
  | _ => false
  end.

Definition built_as_object (built : list pyval) : bool :=
  negb ((forallb (fun v => is_number v || is_null v) built
         && existsb is_number built)
        || (existsb is_boolean built && forallb is_boolean built)).

Definition selection_is_text (col : list pyval) : bool :=
  match filter (fun v => negb (is_null v)) col with
  | [] => true
  | vals => negb (forallb is_number vals || forallb is_boolean vals)
  end.

Definition sample_accessor (built col : list pyval) : bool :=
  built_as_object built && selection_is_text col.

(* ================================================================= *)
(** ** Sample documents and rows *)

Definition member (k v : string) : string := quoted k ++ ":" ++ v.

Definition item_name (answer : string) : string :=
  "{" ++ member "question" (quoted name_question) ++ ","
      ++ member "answer" answer ++ "}".

Definition item_age : string :=
  "{" ++ member "question" (quoted "Age") ++ ","
      ++ member "answer" (quoted "30") ++ "}".

Definition item_name_no_answer : string :=
  "{" ++ member "question" (quoted name_question) ++ "}".

Definition doc_plan (items : string) : string :=
  "{" ++ member "plan" ("[" ++ items ++ "]") ++ "}".

(** The example of the specification. *)
Definition doc_alice : string :=
  doc_plan (item_name (quoted "Alice") ++ "," ++ item_age).

Definition doc_age_only : string := doc_plan item_age.
Definition doc_number_then_age : string := doc_plan ("5," ++ item_age).
Definition doc_number_then_jane : string :=
  doc_plan ("5," ++ item_name (quoted "Jane Doe")).
Definition doc_number_then_no_answer : string :=
  doc_plan ("5," ++ item_name_no_answer).
Definition doc_null_answer : string := doc_plan (item_name "null").
Definition doc_no_plan : string := "{" ++ member "other" "1" ++ "}".
Definition doc_plan_number : string := "{" ++ member "plan" "7" ++ "}".

Definition d_age : list (string * pyval) :=
  [("question", PyStr "Age"); ("answer", PyStr "30")].
Definition d_jane : list (string * pyval) :=
  [("question", PyStr name_question); ("answer", PyStr "Jane Doe")].
Definition d_named (name : string) : list (string * pyval) :=
  [("question", PyStr name_question); ("answer", PyStr name)].
Definition d_no_answer : list (string * pyval) :=
  [("question", PyStr name_question)].
Definition d_null_answer : list (string * pyval) :=
  [("question", PyStr name_question); ("answer", PyNone)].

Definition day (n : Z) : Z := n * ns_per_day.

Definition row_bob : row := mkRow (IdInt 7) (day 10) PyNone (PyStr "Bob") [].
Definition row_null : row := mkRow (IdInt 42) (day 11 + 5) PyNone PyNone [].
Definition row_ann : row := mkRow (IdInt 13) (day 12) PyNone (PyStr "Ann") [].
Definition row_five : row := mkRow (IdInt 5) (day 10) PyNone (PyInt 5) [].
Definition row_six_null : row := mkRow (IdInt 6) (day 10) PyNone PyNone [].
Definition row_one_bob : row := mkRow (IdInt 1) (day 10) PyNone (PyStr "Bob") [].
Definition row_null_early : row := mkRow (IdInt 12) (day 10) PyNone PyNone [].
Definition row_true_late : row :=
  mkRow (IdInt 11) (day 20) PyNone (PyBool true) [].

(** Three rows as the table holds them. *)
Definition table_rows : list (ident * Z * pyval) :=
  [(IdInt 7, (day 10 + 3600)%Z, PyStr doc_alice);
   (IdInt 42, day 11, PyNone);
   (IdInt 13, day 12, PyStr doc_null_answer)].

(* ================================================================= *)
(** ** The rest of the script: connection string, default dates,
       rendering *)

(** Lines 12-16 and 22.  [os.getenv] gives the value of a variable or
    [None]; an f-string renders [None] as the four letters of its name. *)
Definition format_env (value : option string) : string :=
  match value with
  | Some s => s
  | None => "None"
  end.

Definition db_url (DB_USER DB_PASSWORD DB_HOST DB_PORT DB_NAME : option string)
  : string :=
  "postgresql://" ++ format_env DB_USER ++ ":" ++ format_env DB_PASSWORD
    ++ "@" ++ format_env DB_HOST ++ ":" ++ format_env DB_PORT
    ++ "/" ++ format_env DB_NAME.

(** [col.min()] and [col.max()] of a column of timestamps: there is none
    for an empty column, where pandas answers [NaT]. *)
Definition series_min (col : list Z) : option Z :=
  match col with
  | [] => None
  | t :: rest => Some (fold_left Z.min rest t)
  end.

Definition series_max (col : list Z) : option Z :=
  match col with
  | [] => None
  | t :: rest => Some (fold_left Z.max rest t)
  end.

(** Lines 64-65: [df["created_at"].min().date()] and its counterpart;
    [NaT] has no [date()], so neither exists for an empty frame. *)
Definition min_date (df : list row) : option Z :=
  option_map dt_date (series_min (map col_created_at df)).

Definition max_date (df : list row) : option Z :=
  option_map dt_date (series_max (map col_created_at df)).

(** Line 66: the range the date picker proposes, which is the range
    selected as long as the user does not touch it. *)
Definition default_range (df : list row) : option (Z * Z) :=
  match min_date df, max_date df with
  | Some lo, Some hi => Some (lo, hi)
  | _, _ => None
  end.



(** Line 103: the link to the results page of a row. *)
Definition ffp_link (i : ident) : string :=
  "http://ladder.africa/ffp/results?id=" ++ str_of_id i.

(* ================================================================= *)
(** ** The scan for the name and the list of pairs *)

Lemma find_name_nondict : forall x rest,
  is_dict x = false -> find_name (x :: rest) = Raise AttributeError.
Proof.
  intros x rest Hx. destruct x; simpl in *; try reflexivity; discriminate.
Qed.

Lemma find_name_match : forall d rest,
  asks_name d = true ->
  find_name (PyDict d :: rest) = Return (dict_get d "answer" PyNone).
Proof.
  intros d rest Hd. unfold asks_name in Hd. simpl. rewrite Hd. reflexivity.
Qed.

Lemma find_name_step : forall x rest,
  stepped_over x = true -> find_name (x :: rest) = find_name rest.
Proof.
  intros x rest Hx. unfold stepped_over in Hx.
  apply andb_true_iff in Hx. destruct Hx as [Hd Hq].
  destruct x; try discriminate.
  simpl in *. unfold asks_name in Hq.
  apply negb_true_iff in Hq. rewrite Hq. reflexivity.
Qed.

Lemma find_name_skip_prefix : forall pre rest,
  forallb stepped_over pre = true ->
  find_name (pre ++ rest) = find_name rest.
Proof.
  induction pre as [|x pre IH]; intros rest Hpre; simpl in *.
  - reflexivity.
  - apply andb_true_iff in Hpre. destruct Hpre as [Hx Hpre].
    change (find_name (x :: pre ++ rest) = find_name rest).
    rewrite (find_name_step _ _ Hx). apply IH, Hpre.
Qed.

(** Every element a mapping, none asking the name question: the scan
    ends on its default. *)
Lemma find_name_default : forall plan,
  forallb stepped_over plan = true -> find_name plan = Return NA.
Proof.
  intros plan H. rewrite <- (app_nil_r plan).
  rewrite find_name_skip_prefix by exact H. reflexivity.
Qed.

(** Whatever the scan returns when no element asks the name question,
    it is the default. *)
Lemma find_name_no_match : forall plan v,
  existsb item_asks_name plan = false ->
  find_name plan = Return v -> v = NA.
Proof.
  induction plan as [|x plan IH]; intros v Hno Hv.
  - simpl in Hv. congruence.
  - simpl in Hno. apply orb_false_iff in Hno. destruct Hno as [Hx Hno].
    destruct (is_dict x) eqn:Hd.
    + rewrite find_name_step in Hv.
      * apply IH; assumption.
      * unfold stepped_over. rewrite Hd, Hx. reflexivity.
    + rewrite find_name_nondict in Hv by exact Hd. discriminate.
Qed.

(** The scan raises nothing but [AttributeError]. *)
Lemma find_name_raises_attribute : forall plan e,
  find_name plan = Raise e -> e = AttributeError.
Proof.
  induction plan as [|x plan IH]; intros e He.
  - discriminate.
  - destruct x; simpl in He; try congruence.
    destruct (py_eq_str (dict_get d "question" PyNone) name_question).
    + discriminate.
    + apply IH, He.
Qed.

Lemma stepped_over_is_dict : forall plan,
  forallb stepped_over plan = true -> forallb is_dict plan = true.
Proof.
  induction plan as [|x plan IH]; simpl; intros H.
  - reflexivity.
  - apply andb_true_iff in H. destruct H as [Hx H].
    unfold stepped_over in Hx. apply andb_true_iff in Hx.
    rewrite (proj1 Hx), (IH H). reflexivity.
Qed.

Lemma qa_pairs_app : forall l1 l2,
  qa_pairs (l1 ++ l2) = qa_pairs l1 ++ qa_pairs l2.
Proof.
  induction l1 as [|x l1 IH]; intros l2; simpl.
  - reflexivity.
  - destruct x; simpl; rewrite ?IH; reflexivity.
Qed.

(** One pair per mapping, in order. *)
Lemma qa_pairs_length : forall plan,
  List.length (qa_pairs plan) = List.length (filter is_dict plan).
Proof.
  induction plan as [|x plan IH]; simpl.
  - reflexivity.
  - destruct x; simpl; rewrite ?IH; reflexivity.
Qed.

Lemma qa_pairs_all_dicts : forall ds,
  qa_pairs (map PyDict ds) = map qa_of ds.
Proof.
  induction ds as [|d ds IH]; simpl; rewrite ?IH; reflexivity.
Qed.

(* ================================================================= *)
(** ** [parse_metadata] on a metadata value that carries a mapping *)

Section ParseFacts.

Variable json_loads : string -> pyresult pyval.

Lemma parse_try_carries : forall v md,
  carries json_loads v md ->
  parse_metadata_try json_loads v = extract (PyDict md).
Proof.
  intros v md H. destruct H as [md | s md Hs]; simpl.
  - reflexivity.
  - rewrite Hs. reflexivity.
Qed.

Lemma extract_plan_list : forall md plan,
  dict_lookup md "plan" = Some (PyList plan) ->
  extract (PyDict md) =
  (name <- find_name plan ;; Return (name, qa_pairs plan)).
Proof.
  intros md plan H. unfold extract, py_get, dict_get. rewrite H.
  reflexivity.
Qed.

(** The result when the scan returns. *)
Lemma parse_plan_returns : forall v md plan name,
  carries json_loads v md ->
  dict_lookup md "plan" = Some (PyList plan) ->
  find_name plan = Return name ->
  parse_metadata json_loads v = (name, qa_pairs plan).
Proof.
  intros v md plan name Hc Hp Hn. unfold parse_metadata.
  rewrite (parse_try_carries Hc), (extract_plan_list _ Hp), Hn.
  reflexivity.
Qed.

(** The result when the scan raises. *)
Lemma parse_plan_raises : forall v md plan e,
  carries json_loads v md ->
  dict_lookup md "plan" = Some (PyList plan) ->
  find_name plan = Raise e ->
  parse_metadata json_loads v = (NA, []).
Proof.
  intros v md plan e Hc Hp Hn. unfold parse_metadata.
  rewrite (parse_try_carries Hc), (extract_plan_list _ Hp), Hn.
  reflexivity.
Qed.

(** A plan of mappings only: one pair per element and a name. *)
Lemma parse_plan_of_mappings : forall v md plan,
  carries json_loads v md ->
  dict_lookup md "plan" = Some (PyList plan) ->
  forallb is_dict plan = true ->
  exists name,
    find_name plan = Return name /\
    parse_metadata json_loads v = (name, qa_pairs plan).
Proof.
  intros v md plan Hc Hp Hall.
  destruct (find_name plan) as [name|e] eqn:Hn.
  - exists name. split; [reflexivity|].
    apply (parse_plan_returns Hc Hp Hn).
  - exfalso. clear Hc Hp. revert e Hn.
    induction plan as [|x plan IH]; intros e Hn; [discriminate|].
    simpl in Hall. apply andb_true_iff in Hall. destruct Hall as [Hx Hall].
    destruct x; try discriminate. simpl in Hn.
    destruct (py_eq_str (dict_get d "question" PyNone) name_question);
      [discriminate | eapply IH; eauto].
Qed.

(** The name is the answer of the first element that asks for it, as
    long as the elements ahead of it are mappings. *)
Lemma parse_name_first_match : forall v md pre d post,
  carries json_loads v md ->
  dict_lookup md "plan" = Some (PyList (pre ++ PyDict d :: post)) ->
  forallb stepped_over pre = true ->
  asks_name d = true ->
  parse_metadata json_loads v =
  (dict_get d "answer" PyNone, qa_pairs (pre ++ PyDict d :: post)).
Proof.
  intros v md pre d post Hc Hp Hpre Hd.
  apply (parse_plan_returns Hc Hp).
  rewrite (find_name_skip_prefix _ _ Hpre). apply find_name_match, Hd.
Qed.

(** An element that is no mapping, met by the scan before any match,
    costs the whole result. *)
Lemma parse_nonmapping_ahead : forall v md pre x post,
  carries json_loads v md ->
  dict_lookup md "plan" = Some (PyList (pre ++ x :: post)) ->
  forallb stepped_over pre = true ->
  is_dict x = false ->
  parse_metadata json_loads v = (NA, []).
Proof.
  intros v md pre x post Hc Hp Hpre Hx.
  apply (parse_plan_raises (e := AttributeError) Hc Hp).
  rewrite (find_name_skip_prefix _ _ Hpre). apply find_name_nondict, Hx.
Qed.

(** Where an exception of the [try] block can come from: the decoder;
    [get] on a decoded value that is no mapping; the iteration of a
    "plan" that cannot be iterated; [get] on a plan item that is no
    mapping. *)
Lemma parse_try_raise_sources : forall v e,
  parse_metadata_try json_loads v = Raise e ->
  (exists s, v = PyStr s /\ json_loads s = Raise e) \/
  (exists s data, v = PyStr s /\ json_loads s = Return data /\
                  is_dict data = false /\ e = AttributeError) \/
  (exists md, carries json_loads v md /\
              py_iter (dict_get md "plan" (PyList [])) = Raise e /\
              e = TypeError) \/
  (exists md items, carries json_loads v md /\
                    py_iter (dict_get md "plan" (PyList [])) = Return items /\
                    find_name items = Raise e /\ e = AttributeError).
Proof.
  intros v e H.
  assert (Hx : forall md, extract (PyDict md) = Raise e ->
    (py_iter (dict_get md "plan" (PyList [])) = Raise e /\ e = TypeError) \/
    (exists items,
        py_iter (dict_get md "plan" (PyList [])) = Return items /\
        find_name items = Raise e /\ e = AttributeError)).
  { intros md Hmd. unfold extract in Hmd. simpl in Hmd.
    destruct (py_iter (dict_get md "plan" (PyList []))) as [items|e'] eqn:Hi.
    - right. exists items. simpl in Hmd.
      destruct (find_name items) as [name|e''] eqn:Hn; [discriminate|].
      simpl in Hmd. injection Hmd as ->.
      repeat split. apply (find_name_raises_attribute _ Hn).
    - left. simpl in Hmd. injection Hmd as ->. split; [reflexivity|].
      destruct (dict_get md "plan" (PyList [])); simpl in Hi; congruence. }
  destruct v; simpl in H; try discriminate.
  - destruct (json_loads s) as [data|e'] eqn:Hs.
    + simpl in H. destruct (is_dict data) eqn:Hd.
      * destruct data; try discriminate.
        assert (Hc : carries json_loads (PyStr s) d) by (constructor; exact Hs).
        destruct (Hx d H) as [[Hi He] | [items [Hi [Hn He]]]].
        -- right. right. left. exists d. auto.
        -- right. right. right. exists d, items. auto.
      * right. left. exists s, data. repeat split; auto.
        destruct data; simpl in Hd; try discriminate Hd;
          unfold extract in H; simpl in H; congruence.
    + left. exists s. simpl in H. split; congruence.
  - destruct (Hx d H) as [[Hi He] | [items [Hi [Hn He]]]].
    + right. right. left. exists d. repeat split; auto. constructor.
    + right. right. right. exists d, items. repeat split; auto. constructor.
Qed.

End ParseFacts.

(* ================================================================= *)
(** ** Statements about [parse_metadata] *)

(** The example of the specification, decoded and parsed. *)
Example parse_alice :
  parse_metadata lite_loads (PyStr doc_alice) =
  (PyStr "Alice",
   [(PyStr name_question, PyStr "Alice"); (PyStr "Age", PyStr "30")]).
Proof. vm_compute. reflexivity. Qed.

Example parse_not_json :
  parse_metadata lite_loads (PyStr "not json") = (NA, []).
Proof. vm_compute. reflexivity. Qed.

(** C1: for a valid JSON object whose "plan" is a list, the pairs are one
    per mapping element, in order, and an element that is no mapping is
    skipped without failure.  The code does not do this: on the document
    [{"plan":[5,{"question":"Age","answer":"30"}]}] the comprehension of
    line 41 would give the one pair ("Age","30"), but the scan of line 42
    calls [get] on the number, the handler takes over, and the result is
    ("N/A", []).  The same holds when the value arrives as a mapping. *)
Theorem parse_number_then_age_loses_pairs :
  lite_loads doc_number_then_age =
    Return (PyDict [("plan", PyList [PyInt 5; PyDict d_age])]) /\
  qa_pairs [PyInt 5; PyDict d_age] = [(PyStr "Age", PyStr "30")] /\
  find_name [PyInt 5; PyDict d_age] = Raise AttributeError /\
  parse_metadata lite_loads (PyStr doc_number_then_age) = (NA, []) /\
  parse_metadata lite_loads
    (PyDict [("plan", PyList [PyInt 5; PyDict d_age])]) = (NA, []).
Proof. repeat split; vm_compute; reflexivity. Qed.

(** C2: [parse_metadata] gives a (name, pairs) result on every input, and
    whenever the body of its [try] block raises, whatever the exception,
    that result is ("N/A", []). *)
Theorem parse_metadata_never_fails :
  forall (json_loads : string -> pyresult pyval) (v : pyval),
    (exists name pairs, parse_metadata json_loads v = (name, pairs)) /\
    (forall e, parse_metadata_try json_loads v = Raise e ->
               parse_metadata json_loads v = (NA, [])).
Proof.
  intros json_loads v. split.
  - destruct (parse_metadata json_loads v) as [name pairs].
    exists name, pairs. reflexivity.
  - intros e He. unfold parse_metadata. rewrite He. reflexivity.
Qed.

Lemma parse_metadata_never_fails_witness :
  parse_metadata_try lite_loads (PyStr "not json") = Raise JSONDecodeError /\
  parse_metadata lite_loads (PyStr "not json") = (NA, []).
Proof.
  split.
  - vm_compute. reflexivity.
  - apply (proj2 (parse_metadata_never_fails lite_loads (PyStr "not json"))
             JSONDecodeError).
    vm_compute. reflexivity.
Defined.

(** C4: for every plan list with an element whose "question" is the name
    question, the name is the "answer" of the first such element.  The
    code does not do this when an element that is no mapping stands ahead
    of it: on [{"plan":[5,{"question":"What's your full name",
    "answer":"Jane Doe"}]}] the name returned is "N/A", not "Jane Doe". *)
Theorem parse_number_then_jane_loses_name :
  lite_loads doc_number_then_jane =
    Return (PyDict [("plan", PyList [PyInt 5; PyDict d_jane])]) /\
  existsb item_asks_name [PyInt 5; PyDict d_jane] = true /\
  dict_get d_jane "answer" PyNone = PyStr "Jane Doe" /\
  parse_metadata lite_loads (PyStr doc_number_then_jane) = (NA, []).
Proof. repeat split; vm_compute; reflexivity. Qed.

(** C6, as stated, fails: a plan without the name question still yields
    its pairs. *)
Lemma no_name_question_keeps_pairs :
  ~ (forall v md plan,
        carries lite_loads v md ->
        dict_lookup md "plan" = Some (PyList plan) ->
        existsb item_asks_name plan = false ->
        parse_metadata lite_loads v = (NA, [])).
Proof.
  intros H.
  assert (Hc : carries lite_loads (PyStr doc_age_only)
                 [("plan", PyList [PyDict d_age])]).
  { constructor. vm_compute. reflexivity. }
  specialize (H _ _ [PyDict d_age] Hc eq_refl eq_refl).
  vm_compute in H. discriminate H.
Qed.

(** C6, amended: when the plan is a list with no element asking the name
    question, the name is "N/A", and if all its elements are mappings the
    pairs are those of the plan; a string that does not decode, and a
    value that is neither a string nor a mapping ([None] among them),
    give exactly ("N/A", []). *)
Theorem parse_metadata_sentinel_cases :
  forall (json_loads : string -> pyresult pyval) (v : pyval),
    (forall md plan,
        carries json_loads v md ->
        dict_lookup md "plan" = Some (PyList plan) ->
        existsb item_asks_name plan = false ->
        fst (parse_metadata json_loads v) = NA /\
        (forallb is_dict plan = true ->
         parse_metadata json_loads v = (NA, qa_pairs plan))) /\
    (forall s e, v = PyStr s -> json_loads s = Raise e ->
                 parse_metadata json_loads v = (NA, [])) /\
    ((forall s, v <> PyStr s) -> (forall d, v <> PyDict d) ->
     parse_metadata json_loads v = (NA, [])) /\
    parse_metadata json_loads PyNone = (NA, []).
Proof.
  intros json_loads v. split; [|split; [|split]].
  - intros md plan Hc Hp Hno. split.
    + destruct (find_name plan) as [name|e] eqn:Hn.
      * rewrite (parse_plan_returns Hc Hp Hn). simpl.
        apply (find_name_no_match _ Hno Hn).
      * rewrite (parse_plan_raises Hc Hp Hn). reflexivity.
    + intros Hall.
      destruct (parse_plan_of_mappings Hc Hp Hall) as [name [Hn Hr]].
      rewrite Hr. f_equal. apply (find_name_no_match _ Hno Hn).
  - intros s e Hv Hs. subst v. unfold parse_metadata. simpl.
    rewrite Hs. reflexivity.
  - intros Hs Hd. destruct v; try reflexivity.
    + exfalso. apply (Hs s). reflexivity.
    + exfalso. apply (Hd d). reflexivity.
  - reflexivity.
Qed.

Lemma parse_metadata_sentinel_cases_witness :
  parse_metadata lite_loads (PyStr doc_age_only) =
    (NA, [(PyStr "Age", PyStr "30")]) /\
  parse_metadata lite_loads (PyStr "not json") = (NA, []) /\
  parse_metadata lite_loads (PyBool true) = (NA, []).
Proof.
  assert (Hc : carries lite_loads (PyStr doc_age_only)
                 [("plan", PyList [PyDict d_age])]).
  { constructor. vm_compute. reflexivity. }
  split; [|split].
  - apply (proj2 (proj1 (parse_metadata_sentinel_cases lite_loads
                           (PyStr doc_age_only))
                    _ [PyDict d_age] Hc eq_refl eq_refl)).
    reflexivity.
  - apply (proj1 (proj2 (parse_metadata_sentinel_cases lite_loads
                           (PyStr "not json")))
             "not json" JSONDecodeError eq_refl).
    vm_compute. reflexivity.
  - apply (proj1 (proj2 (proj2 (parse_metadata_sentinel_cases lite_loads
                                  (PyBool true)))));
      intros; discriminate.
Defined.

(** A plan none of whose items is a mapping: the body of the [try] block
    returns ("N/A", []) when there is no item at all, and raises
    otherwise. *)
Lemma scan_without_mappings : forall items,
  forallb (fun x => negb (is_dict x)) items = true ->
  match (name <- find_name items ;; Return (name, qa_pairs items)) with
  | Return r => r = (NA, [])
  | Raise _ => True
  end.
Proof.
  intros [|x items] H.
  - reflexivity.
  - simpl in H. apply andb_true_iff in H. destruct H as [Hx _].
    apply negb_true_iff in Hx. rewrite (find_name_nondict _ _ Hx).
    exact I.
Qed.

Lemma chars_not_mappings : forall s,
  forallb (fun x => negb (is_dict x)) (chars_of s) = true.
Proof.
  induction s as [|c s IH]; simpl; auto.
Qed.

Lemma keys_not_mappings : forall d : list (string * pyval),
  forallb (fun x => negb (is_dict x)) (map (fun kv => PyStr (fst kv)) d)
  = true.
Proof.
  induction d as [|kv d IH]; simpl; auto.
Qed.

(** Lines 40-43 on a mapping whose "plan" is missing or is no list. *)
Lemma extract_without_plan_list : forall md,
  match dict_lookup md "plan" with
  | None => True
  | Some p => is_list p = false
  end ->
  match extract (PyDict md) with
  | Return r => r = (NA, [])
  | Raise _ => True
  end.
Proof.
  intros md H. unfold extract, py_get, dict_get.
  destruct (dict_lookup md "plan") as [p|].
  - destruct p; simpl; try exact I; try discriminate.
    + apply scan_without_mappings, chars_not_mappings.
    + apply scan_without_mappings, keys_not_mappings.
  - reflexivity.
Qed.

(** C7: a mapping without a "plan" key, or whose "plan" is no list, is
    parsed to ("N/A", []), which is what an empty plan gives and also what
    a string that does not decode gives. *)
Theorem plan_absent_or_not_a_list :
  forall (json_loads : string -> pyresult pyval) v md s e,
    carries json_loads v md ->
    match dict_lookup md "plan" with
    | None => True
    | Some p => is_list p = false
    end ->
    json_loads s = Raise e ->
    parse_metadata json_loads v = (NA, []) /\
    parse_metadata json_loads v =
      parse_metadata json_loads (PyDict [("plan", PyList [])]) /\
    parse_metadata json_loads v = parse_metadata json_loads (PyStr s).
Proof.
  intros json_loads v md s e Hc Hp Hs.
  assert (Hv : parse_metadata json_loads v = (NA, [])).
  { unfold parse_metadata. rewrite (parse_try_carries Hc).
    pose proof (extract_without_plan_list md Hp) as Hx.
    destruct (extract (PyDict md)) as [r|e']; [exact Hx | reflexivity]. }
  rewrite Hv. repeat split.
  unfold parse_metadata. simpl. rewrite Hs. reflexivity.
Qed.

Lemma plan_absent_or_not_a_list_witness :
  parse_metadata lite_loads (PyStr doc_plan_number) = (NA, []) /\
  parse_metadata lite_loads (PyDict [("other", PyInt 1)]) =
    parse_metadata lite_loads (PyStr "not json").
Proof.
  split.
  - refine (proj1 (@plan_absent_or_not_a_list lite_loads
                     (PyStr doc_plan_number) [("plan", PyInt 7)]
                     "not json" JSONDecodeError _ _ _)).
    + constructor. vm_compute. reflexivity.
    + reflexivity.
    + vm_compute. reflexivity.
  - refine (proj2 (proj2 (@plan_absent_or_not_a_list lite_loads
                            (PyDict [("other", PyInt 1)])
                            [("other", PyInt 1)]
                            "not json" JSONDecodeError _ _ _))).
    + constructor.
    + exact I.
    + vm_compute. reflexivity.
Defined.

Lemma dict_get_present : forall d k v default,
  dict_lookup d k = Some v -> dict_get d k default = v.
Proof.
  intros d k v default H. unfold dict_get. rewrite H. reflexivity.
Qed.

Lemma dict_get_absent : forall d k default,
  dict_lookup d k = None -> dict_get d k default = default.
Proof.
  intros d k default H. unfold dict_get. rewrite H. reflexivity.
Qed.

(** An explicit null is not replaced by the default of line 41. *)
Lemma qa_of_null_answer : forall d,
  dict_lookup d "answer" = Some PyNone -> snd (qa_of d) = PyNone.
Proof.
  intros d H. unfold qa_of. simpl. apply dict_get_present, H.
Qed.

(** Where the scan reaches the first element that asks for the name, a
    missing or null "answer" makes the name [None]. *)
Lemma parse_name_none : forall json_loads v md pre d post,
  carries json_loads v md ->
  dict_lookup md "plan" = Some (PyList (pre ++ PyDict d :: post)) ->
  forallb stepped_over pre = true ->
  asks_name d = true ->
  dict_lookup d "answer" = None \/ dict_lookup d "answer" = Some PyNone ->
  fst (parse_metadata json_loads v) = PyNone.
Proof.
  intros json_loads v md pre d post Hc Hp Hpre Hd Ha.
  rewrite (@parse_name_first_match json_loads v md pre d post Hc Hp Hpre Hd).
  simpl.
  destruct Ha as [Ha|Ha].
  - apply dict_get_absent, Ha.
  - apply dict_get_present, Ha.
Qed.

(** C8: the "N/A" defaults stand in for absent keys only, so the first
    element asking the name question, if it has no "answer" or a null one,
    makes the name [None] and not "N/A".  The pair of an item with a null
    answer does carry [None], and the name is [None] on
    [{"plan":[{"question":"What's your full name","answer":null}]}]; but
    with an element that is no mapping ahead, as in
    [{"plan":[5,{"question":"What's your full name"}]}], the name the code
    returns is the sentinel "N/A". *)
Theorem parse_number_then_no_answer_gives_sentinel :
  lite_loads doc_number_then_no_answer =
    Return (PyDict [("plan", PyList [PyInt 5; PyDict d_no_answer])]) /\
  asks_name d_no_answer = true /\
  dict_lookup d_no_answer "answer" = None /\
  parse_metadata lite_loads (PyStr doc_number_then_no_answer) = (NA, []) /\
  parse_metadata lite_loads (PyStr doc_null_answer) =
    (PyNone, [(PyStr name_question, PyNone)]).
Proof. repeat split; vm_compute; reflexivity. Qed.

(* ================================================================= *)
(** ** Boolean series and row selection *)

Lemma series_and_map : forall (A : Type) (f g : A -> bool) l,
  series_and (map f l) (map g l) = map (fun x => f x && g x) l.
Proof.
  intros A f g l. unfold series_and.
  induction l as [|x l IH]; simpl; [|rewrite IH]; reflexivity.
Qed.

Lemma series_or_map : forall (A : Type) (f g : A -> bool) l,
  series_or (map f l) (map g l) = map (fun x => f x || g x) l.
Proof.
  intros A f g l. unfold series_or.
  induction l as [|x l IH]; simpl; [|rewrite IH]; reflexivity.
Qed.

(** Selecting by a mask computed row by row is filtering. *)
Lemma select_map : forall (A : Type) (f : A -> bool) l,
  select l (map f l) = filter f l.
Proof.
  intros A f l. induction l as [|x l IH]; simpl.
  - reflexivity.
  - rewrite IH. reflexivity.
Qed.

Lemma subseq_refl : forall (A : Type) (l : list A), subseq l l.
Proof.
  induction l as [|x l IH]; constructor; assumption.
Qed.

Lemma subseq_trans : forall (A : Type) (l1 l2 l3 : list A),
  subseq l1 l2 -> subseq l2 l3 -> subseq l1 l3.
Proof.
  intros A l1 l2 l3 H12 H23. revert l1 H12.
  induction H23 as [|x l2 l3 H23 IH|x l2 l3 H23 IH]; intros l1 H12.
  - exact H12.
  - apply subseq_drop, IH, H12.
  - inversion H12; subst.
    + apply subseq_drop, IH. assumption.
    + apply subseq_keep, IH. assumption.
Qed.

Lemma filter_subseq : forall (A : Type) (f : A -> bool) l,
  subseq (filter f l) l.
Proof.
  intros A f l. induction l as [|x l IH]; simpl.
  - constructor.
  - destruct (f x); constructor; assumption.
Qed.

Lemma subseq_In : forall (A : Type) (out l : list A) x,
  subseq out l -> In x out -> In x l.
Proof.
  intros A out l x H. induction H; simpl; intros Hin; auto.
  destruct Hin; auto.
Qed.

Lemma filter_all : forall (A : Type) (f : A -> bool) l,
  (forall x, f x = true) -> filter f l = l.
Proof.
  intros A f l H. induction l as [|x l IH]; simpl.
  - reflexivity.
  - rewrite (H x), IH. reflexivity.
Qed.

(* ================================================================= *)
(** ** The date filter *)

Lemma date_filter_is_filter : forall start_date end_date df,
  date_filter start_date end_date df =
  filter (in_range start_date end_date) df.
Proof.
  intros. unfold date_filter. rewrite series_and_map. apply select_map.
Qed.

Lemma in_range_iff : forall start_date end_date r,
  in_range start_date end_date r = true <->
  (start_date <= dt_date (col_created_at r) <= end_date)%Z.
Proof.
  intros. unfold in_range. rewrite andb_true_iff, Z.geb_le, Z.leb_le.
  reflexivity.
Qed.

(** C5: the date filter keeps exactly the rows whose submission date
    lies in [start, end], both ends included, in their order; a row dated
    on either boundary of a range is kept, a row dated before the start
    or after the end is not. *)
Theorem date_filter_inclusive :
  forall (start_date end_date : Z) (df : list row),
    date_filter start_date end_date df =
      filter (in_range start_date end_date) df /\
    forall r,
      (In r (date_filter start_date end_date df) <->
       In r df /\
       (start_date <= dt_date (col_created_at r) <= end_date)%Z) /\
      (In r df -> (start_date <= end_date)%Z ->
       dt_date (col_created_at r) = start_date \/
       dt_date (col_created_at r) = end_date ->
       In r (date_filter start_date end_date df)) /\
      ((dt_date (col_created_at r) < start_date)%Z \/
       (end_date < dt_date (col_created_at r))%Z ->
       ~ In r (date_filter start_date end_date df)).
Proof.
  intros start_date end_date df.
  split; [apply date_filter_is_filter|].
  intros r. rewrite date_filter_is_filter, filter_In, in_range_iff.
  split; [reflexivity|]. split.
  - intros Hin Hle Hb. split; [exact Hin|]. lia.
  - intros Hout [_ Hin]. lia.
Qed.

Lemma date_filter_inclusive_witness :
  In row_bob (date_filter 10 11 [row_bob; row_null; row_ann]) /\
  In row_null (date_filter 10 11 [row_bob; row_null; row_ann]) /\
  ~ In row_ann (date_filter 10 11 [row_bob; row_null; row_ann]).
Proof.
  pose proof (proj2 (date_filter_inclusive 10 11
                       [row_bob; row_null; row_ann])) as H.
  split; [|split].
  - apply (proj1 (proj2 (H row_bob))).
    + simpl. auto.
    + lia.
    + left. vm_compute. reflexivity.
  - apply (proj1 (proj2 (H row_null))).
    + simpl. auto.
    + lia.
    + right. vm_compute. reflexivity.
  - apply (proj2 (proj2 (H row_ann))).
    right. vm_compute. reflexivity.
Defined.

(* ================================================================= *)
(** ** The pattern matcher of the fragment reads plain patterns
       letter by letter *)

Lemma special_dot : forall c, special c = false -> Ascii.eqb c "."%char = false.
Proof.
  intros c H. destruct (Ascii.eqb c "."%char) eqn:E; [|reflexivity].
  apply Ascii.eqb_eq in E. subst c. discriminate H.
Qed.

Lemma atoms_of_plain : forall pat,
  plain pat = true -> atoms_of pat = Some (literals pat).
Proof.
  induction pat as [|c pat IH]; simpl; intros H.
  - reflexivity.
  - apply andb_true_iff in H. destruct H as [Hc Hp].
    apply negb_true_iff in Hc.
    rewrite (special_dot _ Hc), Hc, (IH Hp). reflexivity.
Qed.

Lemma match_here_literals : forall ignorecase pat s,
  match_here ignorecase (literals pat) s =
  String.prefix (fold_case ignorecase pat) (fold_case ignorecase s).
Proof.
  intros ignorecase pat. induction pat as [|c pat IH]; intros s.
  - destruct ignorecase, s; reflexivity.
  - destruct s as [|b s].
    + destruct ignorecase; reflexivity.
    + simpl literals. simpl match_here. rewrite IH.
      destruct ignorecase; simpl.
      * destruct (ascii_dec (lower_char c) (lower_char b)) as [E|E].
        -- rewrite E, Ascii.eqb_refl. reflexivity.
        -- apply Ascii.eqb_neq in E. rewrite E. reflexivity.
      * destruct (ascii_dec c b) as [E|E].
        -- rewrite E, Ascii.eqb_refl. reflexivity.
        -- apply Ascii.eqb_neq in E. rewrite E. reflexivity.
Qed.

Lemma search_from_literals : forall ignorecase pat s,
  search_from ignorecase (literals pat) s =
  contains (fold_case ignorecase pat) (fold_case ignorecase s).
Proof.
  intros ignorecase pat s. induction s as [|b s IH].
  - simpl search_from. rewrite match_here_literals.
    destruct ignorecase; reflexivity.
  - simpl search_from. rewrite match_here_literals, IH.
    destruct ignorecase; reflexivity.
Qed.

Lemma lite_plain_patterns : plain_patterns_are_literal lite_compile lite_search.
Proof.
  intros pat ignorecase Hp. unfold lite_compile.
  rewrite (atoms_of_plain _ Hp).
  exists (mkRegex (literals pat) ignorecase). split; [reflexivity|].
  intros s. unfold lite_search. simpl.
  rewrite search_from_literals. split.
  - intros H. exact H.
  - intros _. reflexivity.
Qed.


Lemma subseq_map : forall (A B : Type) (f : A -> B) (out l : list A),
  subseq out l -> subseq (map f out) (map f l).
Proof.
  intros A B f out l H. induction H; simpl; constructor; assumption.
Qed.

Lemma astype_str_strings : forall col, forallb is_str (astype_str col) = true.
Proof.
  induction col as [|i col IH]; simpl; auto.
Qed.

Lemma forallb_false_In : forall (A : Type) (f : A -> bool) l x,
  In x l -> f x = false -> forallb f l = false.
Proof.
  intros A f l x Hin Hx. destruct (forallb f l) eqn:E; [|reflexivity].
  rewrite forallb_forall in E. rewrite (E x Hin) in Hx. discriminate Hx.
Qed.

Lemma existsb_false_forall : forall (A : Type) (f g : A -> bool) l,
  forallb g l = true -> (forall x, g x = true -> f x = false) ->
  existsb f l = false.
Proof.
  intros A f g l Hg H. induction l as [|x l IH]; simpl in *.
  - reflexivity.
  - apply andb_true_iff in Hg. destruct Hg as [Hx Hl].
    rewrite (H x Hx), (IH Hl). reflexivity.
Qed.

Lemma is_str_facts : forall v,
  is_str v = true ->
  is_null v = false /\ is_number v = false /\ is_boolean v = false.
Proof.
  intros v H. destruct v; try discriminate H. repeat split.
Qed.

Lemma subseq_forallb : forall (A : Type) (f : A -> bool) (out l : list A),
  subseq out l -> forallb f l = true -> forallb f out = true.
Proof.
  intros A f out l H. induction H; simpl; intros Hl.
  - reflexivity.
  - apply andb_true_iff in Hl. apply IHsubseq, Hl.
  - apply andb_true_iff in Hl. destruct Hl as [Hx Hl].
    rewrite Hx, (IHsubseq Hl). reflexivity.
Qed.

(** A selection that holds a string passes the check on its values. *)
Lemma selection_with_string : forall col,
  existsb is_str col = true -> selection_is_text col = true.
Proof.
  intros col H. unfold selection_is_text.
  apply existsb_exists in H. destruct H as [x [Hin Hx]].
  destruct (is_str_facts _ Hx) as [Hnull [Hnum Hbool]].
  assert (Hv : In x (filter (fun v => negb (is_null v)) col)).
  { apply filter_In. split; [exact Hin|]. rewrite Hnull. reflexivity. }
  destruct (filter (fun v => negb (is_null v)) col) as [|y vals] eqn:E.
  - reflexivity.
  - change (negb (forallb is_number (y :: vals)
                  || forallb is_boolean (y :: vals)) = true).
    rewrite (forallb_false_In _ _ x Hv Hnum).
    rewrite (forallb_false_In _ _ x Hv Hbool). reflexivity.
Qed.

Lemma built_with_string : forall built x,
  In x built -> is_str x = true -> built_as_object built = true.
Proof.
  intros built x Hin Hx. unfold built_as_object.
  destruct (is_str_facts _ Hx) as [Hnull [Hnum Hbool]].
  rewrite (forallb_false_In (fun v => is_number v || is_null v) _ x Hin)
    by (rewrite Hnum, Hnull; reflexivity).
  rewrite (forallb_false_In _ _ x Hin Hbool).
  rewrite andb_false_r. reflexivity.
Qed.

Lemma sample_accessor_accepts_text : accessor_accepts_text sample_accessor.
Proof.
  intros built col Hsub [H | H]; unfold sample_accessor.
  - rewrite (selection_with_string _ H).
    apply existsb_exists in H. destruct H as [x [Hin Hx]].
    assert (Hb : In x built) by (eapply subseq_In; eassumption).
    rewrite (built_with_string built x Hb Hx).
    reflexivity.
  - assert (Hcol : forallb is_str col = true)
      by (apply (subseq_forallb _ Hsub H)).
    assert (Hobj : forall l, forallb is_str l = true ->
                             built_as_object l = true).
    { intros l Hl. unfold built_as_object.
      rewrite (existsb_false_forall is_number is_str l Hl)
        by (intros v Hv; apply (is_str_facts _ Hv)).
      rewrite (existsb_false_forall is_boolean is_str l Hl)
        by (intros v Hv; apply (is_str_facts _ Hv)).
      rewrite andb_false_r. reflexivity. }
    rewrite (Hobj built H). simpl.
    destruct col as [|x col]; [reflexivity|].
    apply selection_with_string. simpl in *.
    apply andb_true_iff in Hcol. rewrite (proj1 Hcol). reflexivity.
Qed.

(** The accessor accepts the column that [astype(str)] builds. *)
Lemma accessor_accepts_ids : forall str_accessor,
  accessor_accepts_text str_accessor ->
  forall col, str_accessor (astype_str col) (astype_str col) = true.
Proof.
  intros str_accessor Hacc col. apply Hacc.
  - apply subseq_refl.
  - right. apply astype_str_strings.
Qed.

(* ================================================================= *)
(** ** The search filter *)

Section SearchFacts.

Variable regex : Type.
Variable re_compile : string -> bool -> pyresult regex.
Variable re_search : regex -> string -> bool.
Variable str_accessor : list pyval -> list pyval -> bool.

Lemma search_filter_empty : forall names df,
  search_filter re_compile re_search str_accessor names EmptyString df
  = Return df.
Proof. reflexivity. Qed.

Lemma search_filter_falsy : forall names q df,
  truthy q = false ->
  search_filter re_compile re_search str_accessor names q df = Return df.
Proof.
  intros names q df Hq. unfold search_filter. rewrite Hq. reflexivity.
Qed.

(** A query that compiles, on columns the accessor accepts: the filter
    is a filter in the list sense. *)
Lemma search_filter_compiled : forall names q rx_name rx_id df,
  truthy q = true ->
  re_compile q true = Return rx_name ->
  re_compile q false = Return rx_id ->
  str_accessor names (map col_name df) = true ->
  str_accessor (astype_str (map col_id df)) (astype_str (map col_id df))
    = true ->
  search_filter re_compile re_search str_accessor names q df =
  Return (filter (keeps re_search rx_name rx_id) df).
Proof.
  intros names q rx_name rx_id df Hq Hn Hi Han Hai.
  unfold search_filter, str_contains. rewrite Hq, Han, Hai. simpl.
  rewrite Hn. simpl. rewrite Hi. simpl. f_equal.
  unfold astype_str. rewrite !map_map.
  rewrite series_or_map, select_map. reflexivity.
Qed.

(** Whenever the filter returns on a query that is not empty, the query
    compiled, the accessor accepted both columns, and the result is the
    list filter. *)
Lemma search_filter_returns : forall names q df out,
  truthy q = true ->
  search_filter re_compile re_search str_accessor names q df = Return out ->
  exists rx_name rx_id,
    re_compile q true = Return rx_name /\
    re_compile q false = Return rx_id /\
    str_accessor names (map col_name df) = true /\
    str_accessor (astype_str (map col_id df)) (astype_str (map col_id df))
      = true /\
    out = filter (keeps re_search rx_name rx_id) df.
Proof.
  intros names q df out Hq H.
  destruct (str_accessor names (map col_name df)) eqn:Han.
  - destruct (re_compile q true) as [rxn|en] eqn:Hn.
    + destruct (str_accessor (astype_str (map col_id df))
                  (astype_str (map col_id df))) eqn:Hai.
      * destruct (re_compile q false) as [rxi|ei] eqn:Hi.
        -- exists rxn, rxi.
           rewrite (@search_filter_compiled names q rxn rxi df
                      Hq Hn Hi Han Hai) in H.
           repeat split. congruence.
        -- unfold search_filter, str_contains in H.
           rewrite Hq, Han, Hai in H. simpl in H. rewrite Hn in H.
           simpl in H. rewrite Hi in H. discriminate H.
      * unfold search_filter, str_contains in H.
        rewrite Hq, Han, Hai in H. simpl in H. rewrite Hn in H.
        discriminate H.
    + unfold search_filter, str_contains in H.
      rewrite Hq, Han in H. simpl in H. rewrite Hn in H. discriminate H.
  - unfold search_filter, str_contains in H.
    rewrite Hq, Han in H. discriminate H.
Qed.

(** Whatever the query, a result of the filter is a subsequence of the
    frame it was given. *)
Lemma search_filter_subseq : forall names q df out,
  search_filter re_compile re_search str_accessor names q df = Return out ->
  subseq out df.
Proof.
  intros names q df out H. destruct (truthy q) eqn:Hq.
  - destruct (search_filter_returns _ _ _ Hq H)
      as [rxn [rxi [_ [_ [_ [_ Ho]]]]]].
    subst out. apply filter_subseq.
  - rewrite (search_filter_falsy _ _ _ Hq) in H. injection H as <-.
    apply subseq_refl.
Qed.

Hypothesis plain_literal : plain_patterns_are_literal re_compile re_search.

(** A query without special characters keeps the rows that pass the
    letter-by-letter tests. *)
Lemma search_filter_plain_keeps : forall names q df out r,
  search_filter re_compile re_search str_accessor names q df = Return out ->
  plain q = true ->
  In r df ->
  keeps_literally q r = true ->
  In r out.
Proof.
  intros names q df out r H Hp Hin Hk. destruct (truthy q) eqn:Hq.
  - destruct (search_filter_returns _ _ _ Hq H)
      as [rxn [rxi [Hn [Hi [_ [_ Ho]]]]]].
    subst out. apply filter_In. split; [exact Hin|].
    destruct (plain_literal q true Hp) as [rxn' [Hn' Hsn]].
    destruct (plain_literal q false Hp) as [rxi' [Hi' Hsi]].
    assert (rxn' = rxn) by congruence. assert (rxi' = rxi) by congruence.
    subst rxn' rxi'.
    unfold keeps, keeps_literally in *. apply orb_true_iff in Hk.
    apply orb_true_iff. destruct Hk as [Hk | Hk].
    + left. unfold name_test, name_icontains in *.
      destruct (col_name r); try discriminate Hk.
      apply (proj1 (Hsn s)). exact Hk.
    + right. apply (proj1 (Hsi _)). exact Hk.
  - rewrite (search_filter_falsy _ _ _ Hq) in H. injection H as <-.
    exact Hin.
Qed.


End SearchFacts.

Lemma lower_char_idempotent : forall c,
  lower_char (lower_char c) = lower_char c.
Proof.
  intros c. destruct c as [[] [] [] [] [] [] [] []]; reflexivity.
Qed.

Lemma lower_idempotent : forall s, lower (lower s) = lower s.
Proof.
  induction s as [|c s IH]; simpl.
  - reflexivity.
  - rewrite lower_char_idempotent, IH. reflexivity.
Qed.

(** The name test on a plain query looks at the query and at the name
    through their lower-case forms only. *)
Lemma name_icontains_case : forall s s' q q',
  lower s = lower s' -> lower q = lower q' ->
  name_icontains (PyStr s) q = name_icontains (PyStr s') q'.
Proof.
  intros s s' q q' Hs Hq. simpl. rewrite Hs, Hq. reflexivity.
Qed.

Lemma with_derived_columns : forall json_loads i t m,
  col_id (with_derived json_loads (i, t, m)) = i /\
  col_created_at (with_derived json_loads (i, t, m)) = t /\
  col_name (with_derived json_loads (i, t, m))
    = fst (parse_metadata json_loads m) /\
  col_qa_pairs (with_derived json_loads (i, t, m))
    = snd (parse_metadata json_loads m).
Proof.
  intros json_loads i t m. unfold with_derived.
  destruct (parse_metadata json_loads m) as [n qa]. repeat split.
Qed.

(* ================================================================= *)
(** ** Statements about the filters *)

(** Lines 58-78 on three rows: the second is dated inside the range
    but matches the query neither by its name, the sentinel, nor by its
    identifier; the third is named [None]. *)
Example page_for_ali :
  filtered_df lite_compile lite_search sample_accessor 10 11 "ALI"
    (map (with_derived lite_loads) table_rows)
  = Return [mkRow (IdInt 7) (day 10 + 3600) (PyStr doc_alice) (PyStr "Alice")
              [(PyStr name_question, PyStr "Alice");
               (PyStr "Age", PyStr "30")]].
Proof. vm_compute. reflexivity. Qed.

Example page_for_3 :
  option_map (map col_id)
    (match filtered_df lite_compile lite_search sample_accessor 10 12 "3"
             (map (with_derived lite_loads) table_rows) with
     | Return out => Some out
     | Raise _ => None
     end)
  = Some [IdInt 13].
Proof. vm_compute. reflexivity. Qed.

Example search_bob_lowercase :
  search_filter lite_compile lite_search sample_accessor
    (map col_name [row_bob; row_null; row_ann]) "bo"
    [row_bob; row_null; row_ann]
  = Return [row_bob].
Proof. vm_compute. reflexivity. Qed.

Example search_by_id_digit :
  search_filter lite_compile lite_search sample_accessor
    (map col_name [row_bob; row_null; row_ann]) "4"
    [row_bob; row_null; row_ann]
  = Return [row_null].
Proof. vm_compute. reflexivity. Qed.

(** A frame whose names are numbers only: the accessor refuses the
    column and the search stops, though the identifier would match. *)
Example search_numbers_only :
  filtered_df lite_compile lite_search sample_accessor 10 10 "5" [row_five]
  = Raise AttributeError.
Proof. vm_compute. reflexivity. Qed.

(** A null name beside a number: the column is built as a column of
    numbers, and the search stops before the identifier is looked at. *)
Example search_number_and_null :
  filtered_df lite_compile lite_search sample_accessor 10 10 "6"
    [row_six_null; row_five]
  = Raise AttributeError.
Proof. vm_compute. reflexivity. Qed.

(** A search whose result holds numbers only as names cannot be run
    again on that result. *)
Example search_again_on_numbers :
  search_filter lite_compile lite_search sample_accessor
    [PyStr "Bob"; PyInt 5] "5" [row_one_bob; row_five]
  = Return [row_five] /\
  search_filter lite_compile lite_search sample_accessor
    [PyStr "Bob"; PyInt 5] "5" [row_five]
  = Raise AttributeError.
Proof. split; vm_compute; reflexivity. Qed.

(** The page may get its rows where a search of the whole frame would
    stop: the only boolean name is dated outside the range. *)
Example search_of_whole_frame_stops :
  filtered_df lite_compile lite_search sample_accessor 10 10 "1"
    [row_null_early; row_true_late]
  = Return [row_null_early] /\
  search_filter lite_compile lite_search sample_accessor
    (map col_name [row_null_early; row_true_late]) "1"
    [row_null_early; row_true_late]
  = Raise AttributeError.
Proof. split; vm_compute; reflexivity. Qed.




(** C9: the two filters only remove rows.  Whatever the loaded rows, the
    date range and the search term, the rows the date filter keeps are
    loaded rows, and whenever the page gets its filtered rows these are
    the loaded rows with some of them left out: nothing is added or
    altered and the order is kept.  With an empty search term the page
    always gets them, and they are the rows the date filter keeps. *)
Theorem filtered_df_subsequence :
  forall (regex : Type) (re_compile : string -> bool -> pyresult regex)
         (re_search : regex -> string -> bool)
         (str_accessor : list pyval -> list pyval -> bool)
         (start_date end_date : Z) (search_term : string) (df : list row),
    subseq (date_filter start_date end_date df) df /\
    (forall out,
        filtered_df re_compile re_search str_accessor
          start_date end_date search_term df = Return out ->
        subseq out (date_filter start_date end_date df) /\ subseq out df) /\
    filtered_df re_compile re_search str_accessor
      start_date end_date EmptyString df
    = Return (date_filter start_date end_date df).
Proof.
  intros regex re_compile re_search str_accessor
         start_date end_date search_term df.
  assert (Hd : subseq (date_filter start_date end_date df) df).
  { rewrite date_filter_is_filter. apply filter_subseq. }
  split; [exact Hd|]. split; [|reflexivity].
  intros out H. unfold filtered_df in H.
  apply search_filter_subseq in H.
  split; [exact H | apply (subseq_trans H Hd)].
Qed.



(* ================================================================= *)
(** ** More about [parse_metadata] *)

(** Lines 40-43 either raise, or return the sentinel pair, or return the
    name found by the scan of a list together with all of its pairs. *)
Lemma extract_outcomes : forall md,
  match extract (PyDict md) with
  | Return r =>
      r = (NA, []) \/
      exists plan name,
        dict_lookup md "plan" = Some (PyList plan) /\
        find_name plan = Return name /\
        r = (name, qa_pairs plan)
  | Raise _ => True
  end.
Proof.
  intros md. unfold extract, py_get, dict_get.
  destruct (dict_lookup md "plan") as [p|] eqn:Hp.
  - destruct p; simpl; try exact I.
    + pose proof (scan_without_mappings _ (chars_not_mappings s)) as H.
      destruct (find_name (chars_of s)); simpl in *; auto.
    + destruct (find_name l) as [name|e] eqn:Hn; simpl; [|exact I].
      right. exists l, name. auto.
    + pose proof (scan_without_mappings _ (keys_not_mappings d)) as H.
      destruct (find_name (map (fun kv => PyStr (fst kv)) d));
        simpl in *; auto.
  - simpl. left. reflexivity.
Qed.

(** The pairs are never a part of the plan's pairs: the result is the
    sentinel pair, or the plan is a list, the scan for the name went
    through, and every mapping of the plan has its pair. *)
Theorem parse_metadata_all_or_nothing :
  forall (json_loads : string -> pyresult pyval) (v : pyval),
    parse_metadata json_loads v = (NA, []) \/
    exists md plan name,
      carries json_loads v md /\
      dict_lookup md "plan" = Some (PyList plan) /\
      find_name plan = Return name /\
      parse_metadata json_loads v = (name, qa_pairs plan) /\
      List.length (snd (parse_metadata json_loads v))
        = List.length (filter is_dict plan).
Proof.
  intros json_loads v.
  assert (Hmd : forall md, carries json_loads v md ->
    parse_metadata json_loads v = (NA, []) \/
    exists md plan name,
      carries json_loads v md /\
      dict_lookup md "plan" = Some (PyList plan) /\
      find_name plan = Return name /\
      parse_metadata json_loads v = (name, qa_pairs plan) /\
      List.length (snd (parse_metadata json_loads v))
        = List.length (filter is_dict plan)).
  { intros md Hc. unfold parse_metadata.
    rewrite (parse_try_carries Hc).
    pose proof (extract_outcomes md) as H.
    destruct (extract (PyDict md)) as [r|e]; [|left; reflexivity].
    destruct H as [H | [plan [name [Hp [Hn Hr]]]]]; [left; exact H|].
    right. exists md, plan, name. subst r. simpl.
    repeat split; auto. apply qa_pairs_length. }
  destruct v; try (left; reflexivity).
  - destruct (json_loads s) as [data|e] eqn:Hs.
    + destruct data;
        try (left; unfold parse_metadata; simpl; rewrite Hs; reflexivity).
      apply (Hmd d). constructor. exact Hs.
    + left. unfold parse_metadata. simpl. rewrite Hs. reflexivity.
  - apply (Hmd d). constructor.
Qed.

(** The scan over mappings only is a search for the first one that asks
    the name question. *)
Lemma find_name_of_mappings : forall ds,
  find_name (map PyDict ds) =
  Return (match find asks_name ds with
          | Some d => dict_get d "answer" PyNone
          | None => NA
          end).
Proof.
  induction ds as [|d ds IH].
  - reflexivity.
  - change (map PyDict (d :: ds)) with (PyDict d :: map PyDict ds).
    simpl find. destruct (asks_name d) eqn:Hd.
    + apply find_name_match, Hd.
    + rewrite find_name_step; [exact IH|].
      unfold stepped_over. simpl. rewrite Hd. reflexivity.
Qed.

(** On a plan all of whose elements are mappings: one pair per element,
    in the order of the plan, each with "N/A" for a missing "question" or
    "answer"; the name is the "answer" of the first element whose
    "question" is the name question ([None] when it has none), and "N/A"
    when no element asks it. *)
Theorem parse_metadata_plan_of_mappings :
  forall (json_loads : string -> pyresult pyval) v md ds,
    carries json_loads v md ->
    dict_lookup md "plan" = Some (PyList (map PyDict ds)) ->
    parse_metadata json_loads v =
    (match find asks_name ds with
     | Some d => dict_get d "answer" PyNone
     | None => NA
     end,
     map qa_of ds).
Proof.
  intros json_loads v md ds Hc Hp.
  rewrite (parse_plan_returns Hc Hp (find_name_of_mappings ds)).
  rewrite qa_pairs_all_dicts. reflexivity.
Qed.

Lemma parse_metadata_plan_of_mappings_witness :
  parse_metadata lite_loads (PyStr doc_alice) =
  (PyStr "Alice", map qa_of [d_named "Alice"; d_age]).
Proof.
  refine (@parse_metadata_plan_of_mappings lite_loads (PyStr doc_alice)
            [("plan", PyList (map PyDict [d_named "Alice"; d_age]))]
            [d_named "Alice"; d_age] _ _).
  - constructor. vm_compute. reflexivity.
  - reflexivity.
Defined.

Lemma asks_name_question : forall d,
  asks_name d = true -> dict_get d "question" NA = PyStr name_question.
Proof.
  intros d H. unfold asks_name, dict_get in *.
  destruct (dict_lookup d "question") as [q|]; [|discriminate H].
  destruct q; try discriminate H. simpl in H.
  apply String.eqb_eq in H. subst s. reflexivity.
Qed.

(** Once the scan has reached the first element that asks the name
    question, nothing after that element can make the parse fail, even an
    element that is no mapping: the name is this element's "answer"
    ([None] without one), the pairs are those of all the mappings of the
    plan, and the pair of the name question is one of them. *)
Theorem parse_metadata_after_first_match :
  forall (json_loads : string -> pyresult pyval) v md pre d post,
    carries json_loads v md ->
    dict_lookup md "plan" = Some (PyList (pre ++ PyDict d :: post)) ->
    forallb stepped_over pre = true ->
    asks_name d = true ->
    parse_metadata json_loads v =
      (dict_get d "answer" PyNone,
       qa_pairs pre ++ qa_of d :: qa_pairs post) /\
    In (PyStr name_question, dict_get d "answer" NA)
       (snd (parse_metadata json_loads v)).
Proof.
  intros json_loads v md pre d post Hc Hp Hpre Hd.
  rewrite (@parse_name_first_match json_loads v md pre d post Hc Hp Hpre Hd).
  rewrite qa_pairs_app. simpl. split; [reflexivity|].
  apply in_or_app. right. left. unfold qa_of.
  rewrite (asks_name_question _ Hd). reflexivity.
Qed.

Lemma parse_metadata_after_first_match_witness :
  parse_metadata lite_loads
    (PyDict [("plan", PyList [PyDict d_age; PyDict d_jane; PyInt 5;
                              PyDict (d_named "Bob")])])
  = (PyStr "Jane Doe",
     [(PyStr "Age", PyStr "30");
      (PyStr name_question, PyStr "Jane Doe");
      (PyStr name_question, PyStr "Bob")]).
Proof.
  refine (proj1 (@parse_metadata_after_first_match lite_loads _
                   [("plan", PyList [PyDict d_age; PyDict d_jane; PyInt 5;
                                     PyDict (d_named "Bob")])]
                   [PyDict d_age] d_jane [PyInt 5; PyDict (d_named "Bob")]
                   _ _ _ _)).
  - constructor.
  - reflexivity.
  - reflexivity.
  - reflexivity.
Defined.

(** The scan of line 42 raises exactly when an element that is no
    mapping comes before any element that asks the name question. *)
Lemma find_name_raises_iff : forall plan,
  raises (find_name plan) <->
  exists pre x post,
    plan = pre ++ x :: post /\
    forallb stepped_over pre = true /\
    is_dict x = false.
Proof.
  intros plan. split.
  - induction plan as [|x plan IH]; intros [e He].
    + discriminate He.
    + destruct (is_dict x) eqn:Hx.
      * destruct (item_asks_name x) eqn:Ha.
        -- destruct x; try discriminate Hx. simpl in Ha.
           rewrite (find_name_match _ _ Ha) in He. discriminate He.
        -- assert (Hs : stepped_over x = true)
             by (unfold stepped_over; rewrite Hx, Ha; reflexivity).
           rewrite (find_name_step _ _ Hs) in He.
           destruct (IH (ex_intro _ e He))
             as [pre [y [post [Hplan [Hpre Hy]]]]].
           exists (x :: pre), y, post. subst plan. simpl.
           rewrite Hs, Hpre. auto.
      * exists [], x, plan. auto.
  - intros [pre [x [post [Hplan [Hpre Hx]]]]]. subst plan.
    exists AttributeError.
    rewrite (find_name_skip_prefix _ _ Hpre). apply find_name_nondict, Hx.
Qed.

(** When the plan is a list, the parse falls back on ("N/A", []) through
    an exception exactly when an element that is no mapping comes before
    any element that asks the name question; the mappings of the plan,
    wherever they stand, then lose their pairs. *)
Theorem parse_metadata_scan_failure :
  forall (json_loads : string -> pyresult pyval) v md plan,
    carries json_loads v md ->
    dict_lookup md "plan" = Some (PyList plan) ->
    (raises (parse_metadata_try json_loads v) <->
     exists pre x post,
       plan = pre ++ x :: post /\
       forallb stepped_over pre = true /\
       is_dict x = false) /\
    (raises (parse_metadata_try json_loads v) ->
     parse_metadata json_loads v = (NA, [])).
Proof.
  intros json_loads v md plan Hc Hp.
  rewrite <- find_name_raises_iff.
  assert (Ht : parse_metadata_try json_loads v =
               (name <- find_name plan ;; Return (name, qa_pairs plan))).
  { rewrite (parse_try_carries Hc). apply (extract_plan_list _ Hp). }
  split.
  - rewrite Ht. split; intros [e He].
    + destruct (find_name plan) as [name|e'] eqn:Hn; [discriminate He|].
      exists e'. reflexivity.
    + exists e. rewrite He. reflexivity.
  - intros [e He]. unfold parse_metadata. rewrite He. reflexivity.
Qed.

Lemma parse_metadata_scan_failure_witness :
  raises (parse_metadata_try lite_loads (PyStr doc_number_then_jane)) /\
  parse_metadata lite_loads (PyStr doc_number_then_jane) = (NA, []).
Proof.
  assert (Hc : carries lite_loads (PyStr doc_number_then_jane)
                 [("plan", PyList [PyInt 5; PyDict d_jane])]).
  { constructor. vm_compute. reflexivity. }
  pose proof (@parse_metadata_scan_failure lite_loads _ _
                [PyInt 5; PyDict d_jane] Hc eq_refl) as [Hiff Hna].
  assert (Hr : raises (parse_metadata_try lite_loads
                         (PyStr doc_number_then_jane))).
  { apply (proj2 Hiff). exists [], (PyInt 5), [PyDict d_jane].
    repeat split. }
  split; [exact Hr | exact (Hna Hr)].
Defined.

(** An exception inside the [try] block has one of four origins: the
    decoder refused the text; the decoded value is no mapping and has no
    [get]; the "plan" cannot be iterated; an item of the plan is no
    mapping and has no [get]. *)
Theorem parse_metadata_exception_origins :
  forall (json_loads : string -> pyresult pyval) v e,
    parse_metadata_try json_loads v = Raise e ->
    (exists s, v = PyStr s /\ json_loads s = Raise e) \/
    (exists s data, v = PyStr s /\ json_loads s = Return data /\
                    is_dict data = false /\ e = AttributeError) \/
    (exists md, carries json_loads v md /\
                py_iter (dict_get md "plan" (PyList [])) = Raise e /\
                e = TypeError) \/
    (exists md items, carries json_loads v md /\
                      py_iter (dict_get md "plan" (PyList [])) = Return items /\
                      raises (find_name items) /\ e = AttributeError).
Proof.
  intros json_loads v e H.
  destruct (parse_try_raise_sources _ _ H)
    as [H1 | [H2 | [H3 | [md [items [Hc [Hi [Hn He]]]]]]]]; auto.
  right. right. right. exists md, items. repeat split; auto.
  exists e. exact Hn.
Qed.

Lemma parse_metadata_exception_origins_witness :
  (exists s, PyStr doc_plan_number = PyStr s /\
             lite_loads s = Raise TypeError) \/
  (exists s data, PyStr doc_plan_number = PyStr s /\
                  lite_loads s = Return data /\
                  is_dict data = false /\ TypeError = AttributeError) \/
  (exists md, carries lite_loads (PyStr doc_plan_number) md /\
              py_iter (dict_get md "plan" (PyList [])) = Raise TypeError /\
              TypeError = TypeError) \/
  (exists md items, carries lite_loads (PyStr doc_plan_number) md /\
                    py_iter (dict_get md "plan" (PyList [])) = Return items /\
                    raises (find_name items) /\ TypeError = AttributeError).
Proof.
  apply (@parse_metadata_exception_origins lite_loads
           (PyStr doc_plan_number) TypeError).
  vm_compute. reflexivity.
Defined.

(* ================================================================= *)
(** ** More about the date filter and the default range *)

Lemma ns_per_day_pos : (0 < ns_per_day)%Z.
Proof. reflexivity. Qed.

Lemma dt_date_monotone : forall t t',
  (t <= t')%Z -> (dt_date t <= dt_date t')%Z.
Proof.
  intros t t' H. unfold dt_date. apply Z.div_le_mono; [reflexivity | exact H].
Qed.

Lemma fold_min_le : forall l t,
  (fold_left Z.min l t <= t)%Z /\
  forall x, In x l -> (fold_left Z.min l t <= x)%Z.
Proof.
  induction l as [|y l IH]; intros t; simpl.
  - split; [lia | intros x []].
  - destruct (IH (Z.min t y)) as [H1 H2]. split; [lia|].
    intros x [Hx | Hx]; [subst; lia | apply H2, Hx].
Qed.

Lemma fold_max_ge : forall l t,
  (t <= fold_left Z.max l t)%Z /\
  forall x, In x l -> (x <= fold_left Z.max l t)%Z.
Proof.
  induction l as [|y l IH]; intros t; simpl.
  - split; [lia | intros x []].
  - destruct (IH (Z.max t y)) as [H1 H2]. split; [lia|].
    intros x [Hx | Hx]; [subst; lia | apply H2, Hx].
Qed.

Lemma series_min_le : forall col m x,
  series_min col = Some m -> In x col -> (m <= x)%Z.
Proof.
  intros [|t rest] m x H Hx; [discriminate H|].
  simpl in H. injection H as <-.
  destruct (fold_min_le rest t) as [H1 H2].
  destruct Hx as [Hx | Hx]; [subst; exact H1 | apply H2, Hx].
Qed.

Lemma series_max_ge : forall col m x,
  series_max col = Some m -> In x col -> (x <= m)%Z.
Proof.
  intros [|t rest] m x H Hx; [discriminate H|].
  simpl in H. injection H as <-.
  destruct (fold_max_ge rest t) as [H1 H2].
  destruct Hx as [Hx | Hx]; [subst; exact H1 | apply H2, Hx].
Qed.

Lemma filter_all_In : forall (A : Type) (f : A -> bool) l,
  (forall x, In x l -> f x = true) -> filter f l = l.
Proof.
  intros A f l. induction l as [|x l IH]; simpl; intros H.
  - reflexivity.
  - rewrite (H x (or_introl eq_refl)), IH; auto.
Qed.

Lemma filter_none_In : forall (A : Type) (f : A -> bool) l,
  (forall x, In x l -> f x = false) -> filter f l = [].
Proof.
  intros A f l. induction l as [|x l IH]; simpl; intros H.
  - reflexivity.
  - rewrite (H x (or_introl eq_refl)), IH; auto.
Qed.

Lemma default_range_covers : forall df : list row,
  df <> [] ->
  exists lo hi,
    default_range df = Some (lo, hi) /\
    (lo <= hi)%Z /\
    date_filter lo hi df = df.
Proof.
  intros df Hne.
  destruct df as [|r df]; [congruence|].
  unfold default_range, min_date, max_date.
  destruct (series_min (map col_created_at (r :: df))) as [lo|] eqn:Hlo;
    [|discriminate Hlo].
  destruct (series_max (map col_created_at (r :: df))) as [hi|] eqn:Hhi;
    [|discriminate Hhi].
  simpl option_map. exists (dt_date lo), (dt_date hi).
  assert (Hall : forall x, In x (r :: df) ->
            (lo <= col_created_at x <= hi)%Z).
  { intros x Hx. split.
    - eapply series_min_le; [exact Hlo | apply in_map, Hx].
    - eapply series_max_ge; [exact Hhi | apply in_map, Hx]. }
  split; [reflexivity|]. split.
  - specialize (Hall r (or_introl eq_refl)).
    apply dt_date_monotone. lia.
  - rewrite date_filter_is_filter. apply filter_all_In.
    intros x Hx. apply in_range_iff.
    destruct (Hall x Hx). split; apply dt_date_monotone; assumption.
Qed.

(** Lines 64-68: a frame with at least one row has a default range, the
    days of its earliest and latest timestamps, and the date filter on
    that range keeps every row; an empty frame has none. *)
Theorem default_range_keeps_all :
  forall df : list row,
    default_range [] = None /\
    (df <> [] ->
     exists lo hi,
       default_range df = Some (lo, hi) /\
       (lo <= hi)%Z /\
       date_filter lo hi df = df).
Proof.
  intros df. split; [reflexivity | apply default_range_covers].
Qed.

Lemma default_range_keeps_all_witness :
  exists lo hi,
    default_range [row_bob; row_null; row_ann] = Some (lo, hi) /\
    (lo <= hi)%Z /\
    date_filter lo hi [row_bob; row_null; row_ann]
      = [row_bob; row_null; row_ann].
Proof.
  apply (proj2 (default_range_keeps_all [row_bob; row_null; row_ann])).
  discriminate.
Defined.

(** Line 68 on nested and on empty ranges: filtering twice is filtering
    by the intersection of the two ranges, and a range whose end lies
    before its start keeps no row. *)
Theorem date_filter_intersection :
  forall (s1 e1 s2 e2 : Z) (df : list row),
    date_filter s1 e1 (date_filter s2 e2 df)
      = date_filter (Z.max s1 s2) (Z.min e1 e2) df /\
    ((e1 < s1)%Z -> date_filter s1 e1 df = []).
Proof.
  intros s1 e1 s2 e2 df. split.
  - rewrite !date_filter_is_filter.
    induction df as [|r df IH]; simpl.
    + reflexivity.
    + destruct (in_range s2 e2 r) eqn:H2; simpl;
        destruct (in_range s1 e1 r) eqn:H1;
        destruct (in_range (Z.max s1 s2) (Z.min e1 e2) r) eqn:H3;
        rewrite ?IH; try reflexivity; exfalso;
        rewrite ?in_range_iff in *;
        try (apply not_true_iff_false in H1; rewrite in_range_iff in H1);
        try (apply not_true_iff_false in H2; rewrite in_range_iff in H2);
        try (apply not_true_iff_false in H3; rewrite in_range_iff in H3);
        lia.
  - intros Hinv. rewrite date_filter_is_filter. apply filter_none_In.
    intros r _. apply not_true_iff_false. rewrite in_range_iff. lia.
Qed.

Lemma date_filter_intersection_witness :
  date_filter 12 10 [row_bob; row_null; row_ann] = [].
Proof.
  apply (proj2 (date_filter_intersection 12 10 0 0
                  [row_bob; row_null; row_ann])).
  reflexivity.
Defined.

(* ================================================================= *)
(** ** More about the search filter and the page *)

Lemma subseq_length : forall (A : Type) (out l : list A),
  subseq out l -> (List.length out <= List.length l)%nat.
Proof.
  intros A out l H. induction H; simpl; lia.
Qed.

Lemma subseq_same_length : forall (A : Type) (out l : list A),
  subseq out l -> List.length out = List.length l -> out = l.
Proof.
  intros A out l H. induction H; simpl; intros Hlen.
  - reflexivity.
  - apply subseq_length in H. lia.
  - f_equal. apply IHsubseq. lia.
Qed.

Lemma filter_filter_comm : forall (A : Type) (f g : A -> bool) l,
  filter f (filter g l) = filter g (filter f l).
Proof.
  intros A f g l. induction l as [|x l IH]; simpl.
  - reflexivity.
  - destruct (f x) eqn:Hf, (g x) eqn:Hg; simpl;
      rewrite ?Hf, ?Hg, IH; reflexivity.
Qed.

Lemma filter_idempotent : forall (A : Type) (f : A -> bool) l,
  filter f (filter f l) = filter f l.
Proof.
  intros A f l. apply filter_all_In. intros x Hx.
  apply filter_In in Hx. apply Hx.
Qed.

(** Line 83: the number of respondents shown is at most the number of
    rows loaded, and when the two are equal no row was left out. *)
Theorem total_respondents_bound :
  forall (regex : Type) (re_compile : string -> bool -> pyresult regex)
         (re_search : regex -> string -> bool)
         (str_accessor : list pyval -> list pyval -> bool)
         (start_date end_date : Z) (search_term : string)
         (df out : list row),
    filtered_df re_compile re_search str_accessor
      start_date end_date search_term df
      = Return out ->
    (List.length out <= List.length df)%nat /\
    (List.length out = List.length df -> out = df).
Proof.
  intros regex re_compile re_search str_accessor
         start_date end_date search_term df out H.
  assert (Hs : subseq out df).
  { unfold filtered_df in H. apply search_filter_subseq in H.
    eapply subseq_trans; [exact H|].
    rewrite date_filter_is_filter. apply filter_subseq. }
  split.
  - apply subseq_length, Hs.
  - apply subseq_same_length, Hs.
Qed.

Lemma total_respondents_bound_witness :
  (List.length [row_bob] <= List.length [row_bob; row_null; row_ann])%nat.
Proof.
  refine (proj1 (@total_respondents_bound _ lite_compile lite_search
                   sample_accessor
                   10 12 "bo" [row_bob; row_null; row_ann] [row_bob] _)).
  vm_compute. reflexivity.
Defined.

(** Lines 74-78: searching the result of a search again with the same
    term never gives other rows than that result, and gives it back
    whenever pandas accepts what is left of the name column. *)
Theorem search_filter_idempotent :
  forall (regex : Type) (re_compile : string -> bool -> pyresult regex)
         (re_search : regex -> string -> bool)
         (str_accessor : list pyval -> list pyval -> bool)
         (names : list pyval) (search_term : string) (df out : list row),
    accessor_accepts_text str_accessor ->
    search_filter re_compile re_search str_accessor names search_term df
      = Return out ->
    (forall out',
        search_filter re_compile re_search str_accessor names search_term out
          = Return out' ->
        out' = out) /\
    (str_accessor names (map col_name out) = true ->
     search_filter re_compile re_search str_accessor names search_term out
       = Return out).
Proof.
  intros regex re_compile re_search str_accessor names q df out Hacc H.
  destruct (truthy q) eqn:Hq.
  - destruct (search_filter_returns _ _ _ _ _ _ Hq H)
      as [rxn [rxi [Hn [Hi [_ [_ Ho]]]]]].
    split.
    + intros out' H'.
      destruct (search_filter_returns _ _ _ _ _ _ Hq H')
        as [rxn' [rxi' [Hn' [Hi' [_ [_ Ho']]]]]].
      assert (rxn' = rxn) by congruence. assert (rxi' = rxi) by congruence.
      subst rxn' rxi' out' out. apply filter_idempotent.
    + intros Han.
      rewrite (@search_filter_compiled regex re_compile re_search
                 str_accessor names q rxn rxi out Hq Hn Hi Han
                 (accessor_accepts_ids Hacc _)).
      subst out. rewrite filter_idempotent. reflexivity.
  - rewrite (search_filter_falsy _ _ _ _ _ _ Hq) in H.
    injection H as <-.
    split; [intros out' H' | intros _];
      rewrite (search_filter_falsy _ _ _ _ _ _ Hq) in *; congruence.
Qed.

Lemma search_filter_idempotent_witness :
  search_filter lite_compile lite_search sample_accessor
    (map col_name [row_bob; row_null; row_ann]) "n" [row_ann]
  = Return [row_ann].
Proof.
  apply (proj2 (@search_filter_idempotent _ lite_compile lite_search
                  sample_accessor
                  (map col_name [row_bob; row_null; row_ann]) "n"
                  [row_bob; row_null; row_ann] [row_ann]
                  sample_accessor_accepts_text eq_refl)).
  reflexivity.
Defined.

(** Lines 68-78: the order of the two filters does not matter for the
    rows.  When the page gets its rows, the date filter first and the
    search after it, and the search of the whole frame gives a result as
    well, the page's rows are that result filtered by date. *)
Theorem filters_commute :
  forall (regex : Type) (re_compile : string -> bool -> pyresult regex)
         (re_search : regex -> string -> bool)
         (str_accessor : list pyval -> list pyval -> bool)
         (start_date end_date : Z) (search_term : string)
         (df out found : list row),
    filtered_df re_compile re_search str_accessor
      start_date end_date search_term df = Return out ->
    search_filter re_compile re_search str_accessor
      (map col_name df) search_term df = Return found ->
    out = date_filter start_date end_date found.
Proof.
  intros regex re_compile re_search str_accessor s e q df out found H H'.
  unfold filtered_df in H. destruct (truthy q) eqn:Hq.
  - destruct (search_filter_returns _ _ _ _ _ _ Hq H)
      as [rxn [rxi [Hn [Hi [_ [_ Ho]]]]]].
    destruct (search_filter_returns _ _ _ _ _ _ Hq H')
      as [rxn' [rxi' [Hn' [Hi' [_ [_ Ho']]]]]].
    assert (rxn' = rxn) by congruence. assert (rxi' = rxi) by congruence.
    subst rxn' rxi' out found.
    rewrite !date_filter_is_filter. apply filter_filter_comm.
  - rewrite (search_filter_falsy _ _ _ _ _ _ Hq) in H.
    rewrite (search_filter_falsy _ _ _ _ _ _ Hq) in H'.
    congruence.
Qed.

Lemma filters_commute_witness :
  [row_ann] = date_filter 11 12 [row_ann].
Proof.
  apply (@filters_commute _ lite_compile lite_search sample_accessor
           11 12 "n" [row_bob; row_null; row_ann] [row_ann] [row_ann]);
    vm_compute; reflexivity.
Defined.

Lemma map_with_derived_nonempty : forall json_loads raw,
  raw <> [] -> map (with_derived json_loads) raw <> [].
Proof.
  intros json_loads [|r raw] H; [congruence | discriminate].
Qed.

(** Lines 58-78 with the widgets untouched: every row of the table is on
    the page, whatever its metadata, parsed or not. *)
Theorem default_page_shows_every_row :
  forall (regex : Type) (re_compile : string -> bool -> pyresult regex)
         (re_search : regex -> string -> bool)
         (str_accessor : list pyval -> list pyval -> bool)
         (json_loads : string -> pyresult pyval)
         (table : list (ident * Z * pyval)),
    table <> [] ->
    exists lo hi,
      default_range (map (with_derived json_loads) table) = Some (lo, hi) /\
      filtered_df re_compile re_search str_accessor lo hi EmptyString
        (map (with_derived json_loads) table)
      = Return (map (with_derived json_loads) table) /\
      List.length (map (with_derived json_loads) table) = List.length table.
Proof.
  intros regex re_compile re_search str_accessor json_loads table Hne.
  destruct (default_range_covers
              (map_with_derived_nonempty json_loads Hne))
    as [lo [hi [Hr [_ Hd]]]].
  exists lo, hi. split; [exact Hr|]. split.
  - unfold filtered_df. rewrite Hd. reflexivity.
  - apply length_map.
Qed.

Lemma default_page_shows_every_row_witness :
  exists lo hi,
    default_range (map (with_derived lite_loads) table_rows) = Some (lo, hi) /\
    filtered_df lite_compile lite_search sample_accessor lo hi EmptyString
      (map (with_derived lite_loads) table_rows)
    = Return (map (with_derived lite_loads) table_rows) /\
    List.length (map (with_derived lite_loads) table_rows)
    = List.length table_rows.
Proof.
  apply (@default_page_shows_every_row _ lite_compile lite_search
           sample_accessor lite_loads table_rows).
  discriminate.
Defined.

Lemma prefix_refl : forall s, String.prefix s s = true.
Proof.
  induction s as [|c s IH]; simpl.
  - reflexivity.
  - destruct (ascii_dec c c) as [_|Hc]; [exact IH | congruence].
Qed.

Lemma contains_refl : forall s, contains s s = true.
Proof.
  intros s. destruct s as [|c s].
  - reflexivity.
  - change (String.prefix (String c s) (String c s)
            || contains (String c s) s = true).
    rewrite prefix_refl. reflexivity.
Qed.

Lemma plain_digits : forall d, plain (NilEmpty.string_of_uint d) = true.
Proof.
  induction d; simpl; auto.
Qed.

(** The decimal form of an integer holds no special character. *)
Lemma plain_decimal : forall z, plain (str_of_id (IdInt z)) = true.
Proof.
  intros z. unfold str_of_id.
  destruct (Z.to_int z) as [d|d]; simpl.
  - destruct d; try reflexivity; apply (plain_digits (_ d)).
  - destruct d; try reflexivity; apply (plain_digits (_ d)).
Qed.

(** A row that passes the letter-by-letter tests of a plain query and is
    dated inside the range is on the page, once the accessor accepts the
    names of the rows dated inside the range. *)
Lemma kept_on_page :
  forall (regex : Type) (re_compile : string -> bool -> pyresult regex)
         (re_search : regex -> string -> bool)
         (str_accessor : list pyval -> list pyval -> bool),
    plain_patterns_are_literal re_compile re_search ->
    accessor_accepts_text str_accessor ->
    forall start_date end_date q df r,
      In r df ->
      (start_date <= dt_date (col_created_at r) <= end_date)%Z ->
      plain q = true ->
      keeps_literally q r = true ->
      str_accessor (map col_name df)
        (map col_name (date_filter start_date end_date df)) = true ->
      exists out,
        filtered_df re_compile re_search str_accessor
          start_date end_date q df = Return out /\
        In r out.
Proof.
  intros regex re_compile re_search str_accessor Hlit Hacc
         s e q df r Hin Hd Hp Hk Han.
  assert (Hrd : In r (date_filter s e df)).
  { rewrite date_filter_is_filter. apply filter_In.
    split; [exact Hin | apply in_range_iff, Hd]. }
  assert (Hret : exists out,
            filtered_df re_compile re_search str_accessor s e q df
            = Return out).
  { unfold filtered_df. destruct (truthy q) eqn:Hq.
    - destruct (Hlit q true Hp) as [rxn [Hn _]].
      destruct (Hlit q false Hp) as [rxi [Hi _]].
      eexists. apply search_filter_compiled; try eassumption.
      apply accessor_accepts_ids, Hacc.
    - eexists. apply search_filter_falsy, Hq. }
  destruct Hret as [out Hout]. exists out. split; [exact Hout|].
  unfold filtered_df in Hout.
  eapply search_filter_plain_keeps; eassumption.
Qed.

(** Lines 68-78: a row dated inside the selected range is found by
    typing its own identifier, in full, as the search term, as long as
    the identifier holds no special character, which is the case of every
    integer, and pandas accepts the names of the rows dated inside the
    range for string methods. *)
Theorem row_found_by_its_id :
  forall (regex : Type) (re_compile : string -> bool -> pyresult regex)
         (re_search : regex -> string -> bool)
         (str_accessor : list pyval -> list pyval -> bool)
         (start_date end_date : Z) (df : list row) (r : row),
    plain_patterns_are_literal re_compile re_search ->
    accessor_accepts_text str_accessor ->
    In r df ->
    (start_date <= dt_date (col_created_at r) <= end_date)%Z ->
    match col_id r with
    | IdInt _ => True
    | IdStr s => plain s = true
    end ->
    str_accessor (map col_name df)
      (map col_name (date_filter start_date end_date df)) = true ->
    exists out,
      filtered_df re_compile re_search str_accessor start_date end_date
        (str_of_id (col_id r)) df = Return out /\
      In r out.
Proof.
  intros regex re_compile re_search str_accessor s e df r
         Hlit Hacc Hin Hd Hid Han.
  apply kept_on_page; try assumption.
  - destruct (col_id r) as [z|t]; [apply plain_decimal | exact Hid].
  - unfold keeps_literally. rewrite contains_refl. apply orb_true_r.
Qed.

Lemma row_found_by_its_id_witness :
  exists out,
    filtered_df lite_compile lite_search sample_accessor 10 12 "42"
      [row_bob; row_null; row_ann] = Return out /\
    In row_null out.
Proof.
  refine (@row_found_by_its_id _ lite_compile lite_search sample_accessor
            10 12 [row_bob; row_null; row_ann] row_null
            lite_plain_patterns sample_accessor_accepts_text _ _ _ _).
  - simpl. auto.
  - vm_compute. split; discriminate.
  - exact I.
  - reflexivity.
Defined.

Lemma existsb_is_str_name : forall (rows : list row) r s,
  In r rows -> col_name r = PyStr s ->
  existsb is_str (map col_name rows) = true.
Proof.
  intros rows r s Hin Hs. apply existsb_exists.
  exists (col_name r). split.
  - apply in_map, Hin.
  - rewrite Hs. reflexivity.
Qed.

(** Lines 58-78, from the table to the page: when the metadata of a row
    carries a plan in which the first element asking the name question
    comes after mappings only and answers with a string, the row is named
    by that string, and any plain query contained in the name, whatever
    the case of either, finds the row if it is dated inside the range. *)
Theorem respondent_found_by_name :
  forall (regex : Type) (re_compile : string -> bool -> pyresult regex)
         (re_search : regex -> string -> bool)
         (str_accessor : list pyval -> list pyval -> bool)
         (json_loads : string -> pyresult pyval)
         (table : list (ident * Z * pyval))
         (i : ident) (t : Z) (m : pyval)
         (md : list (string * pyval)) (pre : list pyval)
         (d : list (string * pyval)) (post : list pyval)
         (name q : string) (start_date end_date : Z),
    plain_patterns_are_literal re_compile re_search ->
    accessor_accepts_text str_accessor ->
    In (i, t, m) table ->
    carries json_loads m md ->
    dict_lookup md "plan" = Some (PyList (pre ++ PyDict d :: post)) ->
    forallb stepped_over pre = true ->
    asks_name d = true ->
    dict_lookup d "answer" = Some (PyStr name) ->
    plain q = true ->
    contains (lower q) (lower name) = true ->
    (start_date <= dt_date t <= end_date)%Z ->
    col_name (with_derived json_loads (i, t, m)) = PyStr name /\
    exists out,
      filtered_df re_compile re_search str_accessor start_date end_date q
        (map (with_derived json_loads) table) = Return out /\
      In (with_derived json_loads (i, t, m)) out.
Proof.
  intros regex re_compile re_search str_accessor json_loads table
         i t m md pre d post
         name q s e Hlit Hacc Hin Hc Hp Hpre Hd Ha Hq Hsub Hdate.
  destruct (with_derived_columns json_loads i t m) as [_ [Ht [Hn _]]].
  assert (Hname : col_name (with_derived json_loads (i, t, m)) = PyStr name).
  { rewrite Hn.
    rewrite (@parse_name_first_match json_loads m md pre d post
               Hc Hp Hpre Hd).
    simpl. apply dict_get_present, Ha. }
  split; [exact Hname|].
  apply (in_map (with_derived json_loads)) in Hin.
  assert (Hdate' : (s <= dt_date (col_created_at
                                    (with_derived json_loads (i, t, m)))
                    <= e)%Z) by (rewrite Ht; exact Hdate).
  apply kept_on_page; try assumption.
  - unfold keeps_literally. rewrite Hname. simpl. rewrite Hsub.
    reflexivity.
  - apply Hacc.
    + apply subseq_map. rewrite date_filter_is_filter. apply filter_subseq.
    + left. eapply existsb_is_str_name; [|exact Hname].
      rewrite date_filter_is_filter. apply filter_In.
      split; [exact Hin | apply in_range_iff, Hdate'].
Qed.

Lemma respondent_found_by_name_witness :
  exists out,
    filtered_df lite_compile lite_search sample_accessor 10 12 "LIC"
      (map (with_derived lite_loads) table_rows) = Return out /\
    In (with_derived lite_loads (IdInt 7, (day 10 + 3600)%Z, PyStr doc_alice))
       out.
Proof.
  refine (proj2 (@respondent_found_by_name _ lite_compile lite_search
                   sample_accessor lite_loads table_rows
                   (IdInt 7) (day 10 + 3600)%Z (PyStr doc_alice)
                   [("plan", PyList ([] ++ PyDict (d_named "Alice")
                                        :: [PyDict d_age]))]
                   [] (d_named "Alice") [PyDict d_age]
                   "Alice" "LIC" 10 12
                   lite_plain_patterns sample_accessor_accepts_text
                   _ _ _ _ _ _ _ _ _)).
  - simpl. auto.
  - constructor. vm_compute. reflexivity.
  - reflexivity.
  - reflexivity.
  - reflexivity.
  - reflexivity.
  - reflexivity.
  - reflexivity.
  - vm_compute. split; discriminate.
Defined.

(* ================================================================= *)
(** ** What the page shows of a row *)


Lemma append_inj_l : forall p a b : string,
  (p ++ a = p ++ b)%string -> a = b.
Proof.
  induction p as [|c p IH]; simpl; intros a b H.
  - exact H.
  - injection H as H. apply IH, H.
Qed.

Lemma to_int_not_nil : forall z,
  Z.to_int z <> Decimal.Pos Decimal.Nil /\
  Z.to_int z <> Decimal.Neg Decimal.Nil.
Proof.
  intros z. destruct z as [|p|p]; simpl; split; try discriminate;
    intros H; injection H as H;
    apply (DecimalPos.Unsigned.to_uint_nonnil p H).
Qed.

(** The decimal form of an integer identifier determines it. *)
Lemma str_of_int_id_injective : forall z z',
  str_of_id (IdInt z) = str_of_id (IdInt z') -> z = z'.
Proof.
  intros z z' H. unfold str_of_id in H.
  apply DecimalZ.to_int_inj.
  destruct (to_int_not_nil z) as [Hp Hn].
  destruct (to_int_not_nil z') as [Hp' Hn'].
  pose proof (NilZero.isi (Z.to_int z) Hp Hn) as E.
  pose proof (NilZero.isi (Z.to_int z') Hp' Hn') as E'.
  rewrite H in E. congruence.
Qed.

(** Line 103: the link carries the string form of the identifier as it
    is.  Two rows have the same link exactly when their identifiers have
    the same string form, and two different integer identifiers never
    lead to the same link. *)
Theorem ffp_link_determines_id :
  (forall i j, ffp_link i = ffp_link j <-> str_of_id i = str_of_id j) /\
  (forall z z', ffp_link (IdInt z) = ffp_link (IdInt z') -> z = z') /\
  (forall s s', ffp_link (IdStr s) = ffp_link (IdStr s') -> s = s').
Proof.
  assert (H : forall i j,
             ffp_link i = ffp_link j <-> str_of_id i = str_of_id j).
  { intros i j. unfold ffp_link. split.
    - apply append_inj_l.
    - intros ->. reflexivity. }
  split; [exact H|]. split.
  - intros z z' E. apply str_of_int_id_injective, H, E.
  - intros s s' E. apply (proj1 (H (IdStr s) (IdStr s')) E).
Qed.

Lemma append_assoc : forall a b c : string,
  ((a ++ b) ++ c = a ++ (b ++ c))%string.
Proof.
  induction a as [|x a IH]; simpl; intros b c.
  - reflexivity.
  - rewrite IH. reflexivity.
Qed.

(** Line 22: the connection string is put together without any quoting.
    A variable that is not set reads as the text "None", and a colon
    inside the user name or the password moves the border between the
    two: different settings give the same string. *)
Theorem db_url_is_not_quoted :
  forall (u p h port n : option string) (a b c : string),
    db_url u p h port n =
      db_url (Some (format_env u)) (Some (format_env p))
             (Some (format_env h)) (Some (format_env port))
             (Some (format_env n)) /\
    db_url (Some (a ++ ":" ++ b)%string) (Some c) h port n =
      db_url (Some a) (Some (b ++ ":" ++ c)%string) h port n.
Proof.
  intros u p h port n a b c. split.
  - reflexivity.
  - unfold db_url. simpl format_env.
    f_equal. rewrite !append_assoc. reflexivity.
Qed.

(* ================================================================= *)
(** ** Longer queries narrow the search *)

Lemma prefix_iff : forall p s,
  String.prefix p s = true <-> exists b, s = (p ++ b)%string.
Proof.
  induction p as [|c p IH]; intros s.
  - split; [intros _; exists s; reflexivity | intros _; destruct s; reflexivity].
  - destruct s as [|x s]; simpl.
    + split; [discriminate | intros [b Hb]; discriminate Hb].
    + destruct (ascii_dec c x) as [E|E].
      * subst x. rewrite IH. split; intros [b Hb]; exists b.
        -- rewrite Hb. reflexivity.
        -- injection Hb as Hb. exact Hb.
      * split; [discriminate | intros [b Hb]; injection Hb; congruence].
Qed.

Lemma contains_iff : forall p s,
  contains p s = true <-> exists a b, s = (a ++ p ++ b)%string.
Proof.
  intros p s. induction s as [|x s IH].
  - change (contains p EmptyString)
      with (String.prefix p EmptyString || false).
    rewrite orb_false_r, prefix_iff. split.
    + intros [b Hb]. exists EmptyString, b. exact Hb.
    + intros [a [b H]]. destruct a; [exists b; exact H | discriminate H].
  - change (contains p (String x s))
      with (String.prefix p (String x s) || contains p s).
    rewrite orb_true_iff, prefix_iff, IH. split.
    + intros [[b Hb] | [a [b Hab]]].
      * exists EmptyString, b. exact Hb.
      * exists (String x a), b. simpl. rewrite Hab. reflexivity.
    + intros [a [b H]]. destruct a as [|y a].
      * left. exists b. exact H.
      * right. simpl in H. injection H as _ H. exists a, b. exact H.
Qed.

Lemma lower_append : forall a b,
  lower (a ++ b) = (lower a ++ lower b)%string.
Proof.
  induction a as [|c a IH]; simpl; intros b.
  - reflexivity.
  - rewrite IH. reflexivity.
Qed.

Lemma contains_trans : forall p q s,
  contains p q = true -> contains q s = true -> contains p s = true.
Proof.
  intros p q s Hpq Hqs. apply contains_iff in Hpq, Hqs. apply contains_iff.
  destruct Hpq as [a [b Hq]]. destruct Hqs as [a' [b' Hs]].
  exists (a' ++ a)%string, (b ++ b')%string. subst q s.
  rewrite !append_assoc. reflexivity.
Qed.

Lemma contains_lower : forall p s,
  contains p s = true -> contains (lower p) (lower s) = true.
Proof.
  intros p s H. apply contains_iff in H. apply contains_iff.
  destruct H as [a [b Hs]]. exists (lower a), (lower b). subst s.
  rewrite !lower_append. reflexivity.
Qed.

Lemma filter_subseq_impl : forall (A : Type) (f g : A -> bool) l,
  (forall x, In x l -> f x = true -> g x = true) ->
  subseq (filter f l) (filter g l).
Proof.
  intros A f g l H. induction l as [|x l IH]; simpl.
  - constructor.
  - assert (IH' : subseq (filter f l) (filter g l)).
    { apply IH. intros y Hy. apply H. right. exact Hy. }
    destruct (f x) eqn:Hf.
    + rewrite (H x (or_introl eq_refl) Hf). apply subseq_keep, IH'.
    + destruct (g x); [apply subseq_drop|]; exact IH'.
Qed.

Lemma contains_in_empty : forall p, contains p EmptyString = true ->
  p = EmptyString.
Proof.
  intros p H. destruct p; [reflexivity | discriminate H].
Qed.

(** Lines 74-78: typing more narrows the result.  When a plain query is
    part of a longer plain query of seven-bit characters, the names being
    of seven-bit characters too, and both searches give a result, every
    row the longer query finds is found by the shorter one, in the same
    order. *)
Theorem longer_query_narrows :
  forall (regex : Type) (re_compile : string -> bool -> pyresult regex)
         (re_search : regex -> string -> bool)
         (str_accessor : list pyval -> list pyval -> bool)
         (names : list pyval) (q q' : string) (df out out' : list row),
    plain_patterns_are_literal re_compile re_search ->
    plain q = true ->
    plain q' = true ->
    contains q q' = true ->
    is_ascii q' = true ->
    (forall r s, In r df -> col_name r = PyStr s -> is_ascii s = true) ->
    search_filter re_compile re_search str_accessor names q df
      = Return out ->
    search_filter re_compile re_search str_accessor names q' df
      = Return out' ->
    subseq out' out.
Proof.
  intros regex re_compile re_search str_accessor names q q' df out out'
         Hlit Hq Hq' Hsub Hq7 Hn7 H H'.
  destruct (truthy q) eqn:Htq.
  - destruct (truthy q') eqn:Htq'.
    + destruct (search_filter_returns _ _ _ _ _ _ Htq H)
        as [rxn [rxi [Hn [Hi [_ [_ Ho]]]]]].
      destruct (search_filter_returns _ _ _ _ _ _ Htq' H')
        as [rxn' [rxi' [Hn' [Hi' [_ [_ Ho']]]]]].
      destruct (Hlit q true Hq) as [a [Ha Hsa]].
      destruct (Hlit q false Hq) as [b [Hb Hsb]].
      destruct (Hlit q' true Hq') as [a' [Ha' Hsa']].
      destruct (Hlit q' false Hq') as [b' [Hb' Hsb']].
      assert (a = rxn) by congruence. assert (b = rxi) by congruence.
      assert (a' = rxn') by congruence. assert (b' = rxi') by congruence.
      subst a b a' b' out out'.
      apply filter_subseq_impl. intros r Hin Hk. unfold keeps in *.
      apply orb_true_iff in Hk. apply orb_true_iff.
      destruct Hk as [Hk | Hk].
      * left. unfold name_test in *.
        destruct (col_name r) eqn:Hname; try discriminate Hk.
        apply (proj1 (Hsa s)).
        apply (contains_trans _ (fold_case true q')).
        -- apply contains_lower, Hsub.
        -- change (contains (fold_case true q') (fold_case true s) = true).
           rewrite <- (proj2 (Hsa' s)); [exact Hk|].
           right. split; [exact Hq7 | apply (Hn7 r s Hin Hname)].
      * right. apply (proj1 (Hsb _)).
        apply (contains_trans _ q'); [exact Hsub|].
        change (contains (fold_case false q')
                  (fold_case false (str_of_id (col_id r))) = true).
        rewrite <- (proj2 (Hsb' _)); [exact Hk | left; reflexivity].
    + destruct q'; [|discriminate Htq'].
      apply contains_in_empty in Hsub. subst q. discriminate Htq.
  - rewrite (search_filter_falsy _ _ _ _ _ _ Htq) in H.
    injection H as <-. eapply search_filter_subseq. exact H'.
Qed.

Lemma longer_query_narrows_witness :
  subseq [row_ann] [row_ann].
Proof.
  apply (@longer_query_narrows _ lite_compile lite_search sample_accessor
           (map col_name [row_bob; row_null; row_ann]) "n" "nn"
           [row_bob; row_null; row_ann] [row_ann] [row_ann]
           lite_plain_patterns); try reflexivity.
  intros r s [<- | [<- | [<- | []]]] Hs; vm_compute in Hs;
    try discriminate Hs; injection Hs as <-; reflexivity.
Defined.
